(** * Anymail base backend: a shallow embedding of anymail/backends/base.py

    The backend ([AnymailBaseBackend]) and the payload builder ([BasePayload])
    are embedded with Python's exceptions made explicit: a computation returns
    [Ok a] or [Exc e].  The send orchestration ([_send], [send_messages]) runs
    in a small state-and-exception monad whose state records the observable
    calls (open, close, payload build, transport, observers, status check) and
    the [anymail_status] attached to each message. *)

From Stdlib Require Import String List ZArith Bool Lia.
Import ListNotations.
Open Scope string_scope.
Set Warnings "-register-all -notation-for-abbreviation".

(** ** Python exceptions

    An exception instance carries its class, its method resolution order
    (the class itself first) and its message.  [isinstance e C] is Python's
    [isinstance], the test an [except C:] clause makes. *)

Record pyexn := mk_exn {
  exn_class : string;
  exn_mro : list string;
  exn_args : string
}.

Definition isinstance (e : pyexn) (cls : string) : bool :=
  existsb (String.eqb cls) (exn_mro e).

Definition builtin_exn (cls : string) (msg : string) : pyexn :=
  mk_exn cls [cls; "Exception"; "BaseException"] msg.

Definition TypeError (msg : string) := builtin_exn "TypeError" msg.
Definition ValueError (msg : string) := builtin_exn "ValueError" msg.
Definition AttributeError (msg : string) := builtin_exn "AttributeError" msg.
Definition NotImplementedError (msg : string) :=
  builtin_exn "NotImplementedError" msg.

(** Modelled from the spec: the exception classes of anymail/exceptions.py
    (not in src).  The spec (section 7) says the unsupported-feature,
    transport, parse and all-refused errors all descend from one common
    taxonomy root, [AnymailError], itself an ordinary [Exception]; the
    cancellation signal of the pre-send hook is not one of those errors. *)
Definition anymail_exn (cls : string) (msg : string) : pyexn :=
  mk_exn cls [cls; "AnymailError"; "Exception"; "BaseException"] msg.

Definition AnymailRecipientsRefused := anymail_exn "AnymailRecipientsRefused".
Definition AnymailUnsupportedFeature := anymail_exn "AnymailUnsupportedFeature".
Definition AnymailAPIError := anymail_exn "AnymailAPIError".
Definition AnymailCancelSend (msg : string) :=
  mk_exn "AnymailCancelSend" ["AnymailCancelSend"; "Exception"; "BaseException"] msg.

(** Result of a Python call: a value, or a raised exception. *)
Inductive outcome (A : Type) : Type :=
| Ok (a : A)
| Exc (e : pyexn).
Arguments Ok {A} a.
Arguments Exc {A} e.

Definition obind {A B} (o : outcome A) (k : A -> outcome B) : outcome B :=
  match o with Ok a => k a | Exc e => Exc e end.

(** ** Python values

    The values an attribute of a message, a default or a signal response can
    hold.  [UNSET] (the sentinel of anymail/utils.py) is not a value: an
    attribute that may be unset has type [option pyval], [None] being
    [UNSET].  Dicts are insertion-ordered association lists. *)

Record datetime := mk_datetime {
  dt_year : Z; dt_month : Z; dt_day : Z;
  dt_hour : Z; dt_minute : Z; dt_second : Z; dt_microsecond : Z;
  dt_tzinfo : option string
}.

Inductive pyval : Type :=
| VNone
| VBool (b : bool)
| VInt (z : Z)
| VStr (s : string)
| VList (l : list pyval)
| VDict (d : list (string * pyval))
| VDate (y m d : Z)
| VDateTime (dt : datetime)
| VExn (e : pyexn).

(** dict operations: [d.get(k)], [d[k] = v] and [d.update(d2)]. *)
Fixpoint dict_get {V} (d : list (string * V)) (k : string) : option V :=
  match d with
  | [] => None
  | (k', v) :: t => if String.eqb k k' then Some v else dict_get t k
  end.

Fixpoint dict_set {V} (d : list (string * V)) (k : string) (v : V)
  : list (string * V) :=
  match d with
  | [] => [(k, v)]
  | (k', v') :: t =>
      if String.eqb k k' then (k, v) :: t else (k', v') :: dict_set t k v
  end.

Definition dict_update {V} (d1 d2 : list (string * V)) : list (string * V) :=
  fold_left (fun acc kv => dict_set acc (fst kv) (snd kv)) d2 d1.

(** ** Messages *)

(** The outbound message (a Django [EmailMessage], external): its id, the
    result of [message.recipients()], its attributes as [getattr] sees them,
    and [message.content_subtype]. *)
Record message := mk_message {
  msg_id : nat;
  msg_recipients : list string;
  msg_attrs : list (string * pyval);
  content_subtype : string
}.

(** Modelled from the spec: [AnymailStatus] of anymail/message.py (not in
    src).  The aggregate status of a message is the set of distinct
    per-recipient statuses observed, together with the raw provider response;
    [set_recipient_status] merges the parsed per-recipient mapping (email to
    status) into [recipients] and recomputes [status] from it.  A fresh
    status has no recipients and no aggregate status yet ([None]). *)
Record anymail_status (R : Type) := mk_status {
  esp_response : option R;
  st_recipients : list (string * string);
  status : option (list string)
}.
Arguments mk_status {R}.
Arguments esp_response {R}.
Arguments st_recipients {R}.
Arguments status {R}.

Definition AnymailStatus {R} : anymail_status R := mk_status None [] None.

Fixpoint dedup (l : list string) : list string :=
  match l with
  | [] => []
  | x :: t => if existsb (String.eqb x) t then dedup t else x :: dedup t
  end.

Definition set_recipient_status {R} (st : anymail_status R)
    (recipients : list (string * string)) : anymail_status R :=
  let recips := dict_update (st_recipients st) recipients in
  mk_status (esp_response st) recips (Some (dedup (map snd recips))).

Definition set_esp_response {R} (st : anymail_status R) (r : R) : anymail_status R :=
  mk_status (Some r) (st_recipients st) (status st).

(** Python's [s.issubset({"invalid", "rejected"})]. *)
Definition issubset_refused (s : list string) : bool :=
  forallb (fun x => String.eqb x "invalid" || String.eqb x "rejected") s.

(** ** The send monad

    State: the trace of observable calls, and the [anymail_status] attached
    to each message (by message id). *)

Inductive event : Type :=
| EOpen
| EClose
| ESend (id : nat)
| EPreSend
| EBuildPayload
| EPostToEsp
| EParseStatus
| ERunPostSend
| EPostSendReceiver (k : nat)
| ERaiseForStatus.

Definition event_eqb (a b : event) : bool :=
  match a, b with
  | EOpen, EOpen | EClose, EClose | EPreSend, EPreSend
  | EBuildPayload, EBuildPayload | EPostToEsp, EPostToEsp
  | EParseStatus, EParseStatus | ERunPostSend, ERunPostSend
  | ERaiseForStatus, ERaiseForStatus => true
  | ESend i, ESend j => Nat.eqb i j
  | EPostSendReceiver i, EPostSendReceiver j => Nat.eqb i j
  | _, _ => false
  end.

Record state (R : Type) := mk_state {
  st_trace : list event;
  st_attached : list (nat * anymail_status R)
}.
Arguments mk_state {R}.
Arguments st_trace {R}.
Arguments st_attached {R}.

Fixpoint attached_get {R} (l : list (nat * anymail_status R)) (id : nat)
  : option (anymail_status R) :=
  match l with
  | [] => None
  | (i, s) :: t => if Nat.eqb i id then Some s else attached_get t id
  end.

Module SendMonad.

Definition M (R A : Type) := state R -> outcome A * state R.

Definition ret {R A} (a : A) : M R A := fun s => (Ok a, s).

Definition bind {R A B} (m : M R A) (k : A -> M R B) : M R B :=
  fun s => match m s with
           | (Ok a, s') => k a s'
           | (Exc e, s') => (Exc e, s')
           end.

Definition raise {R A} (e : pyexn) : M R A := fun s => (Exc e, s).

Definition lift {R A} (o : outcome A) : M R A := fun s => (o, s).

Definition emit {R} (ev : event) : M R unit :=
  fun s => (Ok tt, mk_state (st_trace s ++ [ev]) (st_attached s)).

(** [message.anymail_status = st] *)
Definition attach {R} (id : nat) (st : anymail_status R) : M R unit :=
  fun s => (Ok tt, mk_state (st_trace s) ((id, st) :: st_attached s)).

(** reading [message.anymail_status]; an unset attribute is an AttributeError *)
Definition get_attached {R} (id : nat) : M R (anymail_status R) :=
  fun s => match attached_get (st_attached s) id with
           | Some st => (Ok st, s)
           | None => (Exc (AttributeError "anymail_status"), s)
           end.

(** [try: m except: h(e)]: [h] decides whether to handle or re-raise. *)
Definition try_except {R A} (m : M R A) (h : pyexn -> M R A) : M R A :=
  fun s => match m s with
           | (Exc e, s') => h e s'
           | r => r
           end.

(** [try: m finally: fin]: [fin] always runs; an exception it raises
    replaces the outcome of [m]. *)
Definition try_finally {R A} (m : M R A) (fin : M R unit) : M R A :=
  fun s => match m s with
           | (o, s1) =>
               match fin s1 with
               | (Ok _, s2) => (o, s2)
               | (Exc e, s2) => (Exc e, s2)
               end
           end.

End SendMonad.

Import SendMonad.

Notation "x <- m ;; k" := (bind m (fun x => k))
  (at level 61, m at next level, right associativity).
Notation "m ;; k" := (bind m (fun _ => k))
  (at level 61, right associativity).

(** ** The backend: [AnymailBaseBackend]

    The settings read in [__init__]. *)
Record backend_cfg := mk_backend {
  esp_name : string;
  ignore_unsupported_features : bool;
  ignore_recipient_status : bool;
  fail_silently : bool;
  send_defaults : list (string * pyval)
}.

(** Django's [Signal.send]: receivers run in order and the first exception
    propagates.  A pre-send receiver may modify the message, so it returns the
    message as it leaves it. *)
Fixpoint signal_send (receivers : list (message -> outcome message))
    (m : message) : outcome message :=
  match receivers with
  | [] => Ok m
  | r :: rest => obind (r m) (signal_send rest)
  end.

Section Backend.

Variables (payload response : Type).

(** [self]: the backend's settings. *)
Variable self : backend_cfg.

(** Receivers connected to the [pre_send] and [post_send] signals. *)
Variable pre_send_receivers : list (message -> outcome message).
Variable post_send_receivers :
  list (message -> anymail_status response -> outcome pyval).

(** The provider's overrides: [open], [close], [build_message_payload],
    [post_to_esp] and [parse_recipient_status]. *)
Variable open_result : outcome bool.
Variable close_result : outcome unit.
Variable build_message_payload :
  message -> list (string * pyval) -> outcome payload.
Variable post_to_esp : payload -> message -> outcome response.
Variable parse_recipient_status :
  response -> payload -> message -> outcome (list (string * string)).

Definition run_pre_send (m : message) : M response (bool * message) :=
  emit EPreSend ;;
  try_except
    (m' <- lift (signal_send pre_send_receivers m) ;; ret (true, m'))
    (fun e => if isinstance e "AnymailCancelSend" then ret (false, m)
              else raise e).

(** Django's [Signal.send_robust]: every receiver runs; an [Exception] it
    raises is caught and collected as its response (any other
    [BaseException] propagates). *)
Fixpoint send_robust_from (k : nat)
    (receivers : list (message -> anymail_status response -> outcome pyval))
    (m : message) (st : anymail_status response) : M response (list pyval) :=
  match receivers with
  | [] => ret []
  | r :: rest =>
      emit (EPostSendReceiver k) ;;
      resp <- (match r m st with
               | Ok v => ret v
               | Exc e => if isinstance e "Exception" then ret (VExn e)
                          else raise e
               end) ;;
      responses <- send_robust_from (S k) rest m st ;;
      ret (resp :: responses)
  end.

(** [for (receiver, response) in results:
        if isinstance(response, Exception): raise response] *)
Fixpoint raise_exception_response (results : list pyval) : M response unit :=
  match results with
  | [] => ret tt
  | VExn e :: rest =>
      if isinstance e "Exception" then raise e
      else raise_exception_response rest
  | _ :: rest => raise_exception_response rest
  end.

(** [self.run_post_send(message)]: [obj] is the message object (its
    [anymail_status] is the one attached to it), [m] its contents as the
    pre-send receivers left them; Python passes the one mutated object. *)
Definition run_post_send (obj : nat) (m : message) : M response unit :=
  emit ERunPostSend ;;
  st <- get_attached obj ;;
  results <- send_robust_from 0 post_send_receivers m st ;;
  raise_exception_response results.

Definition raise_for_recipient_status (st : anymail_status response)
    (r : response) (p : payload) (m : message) : M response unit :=
  emit ERaiseForStatus ;;
  if negb (ignore_recipient_status self) then
    match status st with
    | None => raise (AttributeError "issubset")
    | Some s =>
        if issubset_refused s
        then raise (AnymailRecipientsRefused "recipients refused")
        else ret tt
    end
  else ret tt.

Definition _send (m0 : message) : M response bool :=
  attach (msg_id m0) AnymailStatus ;;
  pre <- run_pre_send m0 ;;
  let (go, m) := pre in
  if negb go then ret false
  else match msg_recipients m with
  | [] => ret false
  | _ :: _ =>
      p <- (emit EBuildPayload ;; lift (build_message_payload m (send_defaults self))) ;;
      r <- (emit EPostToEsp ;; lift (post_to_esp p m)) ;;
      st <- get_attached (msg_id m0) ;;
      attach (msg_id m0) (set_esp_response st r) ;;
      recipient_status <- (emit EParseStatus ;; lift (parse_recipient_status r p m)) ;;
      st1 <- get_attached (msg_id m0) ;;
      attach (msg_id m0) (set_recipient_status st1 recipient_status) ;;
      run_post_send (msg_id m0) m ;;
      st2 <- get_attached (msg_id m0) ;;
      raise_for_recipient_status st2 r p m ;;
      ret true
  end.

(** The body of the loop of [send_messages]:
    [try: sent = self._send(message)
     except AnymailError: if self.fail_silently: sent = False else: raise] *)
Definition send_one (m : message) : M response bool :=
  emit (ESend (msg_id m)) ;;
  try_except (_send m)
    (fun e => if isinstance e "AnymailError"
              then (if fail_silently self then ret false else raise e)
              else raise e).

Fixpoint send_loop (msgs : list message) (num_sent : nat) : M response nat :=
  match msgs with
  | [] => ret num_sent
  | m :: rest =>
      sent <- send_one m ;;
      send_loop rest (if sent then S num_sent else num_sent)
  end.

Definition send_messages (email_messages : list message) : M response nat :=
  match email_messages with
  | [] => ret 0
  | _ :: _ =>
      created_session <- (emit EOpen ;; lift open_result) ;;
      try_finally (send_loop email_messages 0)
        (if created_session then (emit EClose ;; lift close_result) else ret tt)
  end.

End Backend.

(** The base class's own [open], [close], [build_message_payload],
    [post_to_esp] and [parse_recipient_status], for a provider that does not
    override them. *)
Definition base_open : outcome bool := Ok false.
Definition base_close : outcome unit := Ok tt.
Definition base_build_message_payload {payload} (_ : message)
    (_ : list (string * pyval)) : outcome payload :=
  Exc (NotImplementedError "must implement build_message_payload").
Definition base_post_to_esp {payload response} (_ : payload) (_ : message)
  : outcome response :=
  Exc (NotImplementedError "must implement post_to_esp").
Definition base_parse_recipient_status {payload response} (_ : response)
    (_ : payload) (_ : message) : outcome (list (string * string)) :=
  Exc (NotImplementedError "must implement parse_recipient_status").

(** [AnymailBaseBackend.__init__]: the settings it reads, as
    [get_anymail_setting] returns them ([None]: not configured, so the
    default applies).  [SEND_DEFAULTS] is copied and updated with
    [<ESP>_SEND_DEFAULTS] when the latter is configured. *)
Definition merged_send_defaults (send_defaults : option (list (string * pyval)))
    (esp_send_defaults : option (list (string * pyval))) : list (string * pyval) :=
  let send_defaults := match send_defaults with Some d => d | None => [] end in
  match esp_send_defaults with
  | Some e => dict_update send_defaults e
  | None => send_defaults
  end.

Definition AnymailBaseBackend_init (esp_name : string) (fail_silently : bool)
    (ignore_unsupported_features ignore_recipient_status : option bool)
    (send_defaults esp_send_defaults : option (list (string * pyval)))
  : backend_cfg :=
  mk_backend esp_name
    (match ignore_unsupported_features with Some b => b | None => false end)
    (match ignore_recipient_status with Some b => b | None => false end)
    fail_silently
    (merged_send_defaults send_defaults esp_send_defaults).

(** ** Payload construction: [BasePayload] *)

(** Modelled from the spec: [last] and [combine] of anymail/utils.py (not in
    src).  Both take the settings default and the message value, either of
    which may be [UNSET] ([None] here).  [last] is the override strategy: the
    caller value wins if present, else the default.  [combine] is the merge
    strategy: the values present are combined left to right, a mapping by
    key union with the later value taking precedence ([dict.update]), a
    sequence by concatenation; when only one side is present it is the
    result.  Combining values of different kinds is a [TypeError], as
    Python's [+] is. *)
Definition last (args : list (option pyval)) : option pyval :=
  fold_left (fun result value =>
               match value with Some _ => value | None => result end)
            args None.

Definition merge_values (result value : pyval) : outcome pyval :=
  match result, value with
  | VDict d1, VDict d2 => Ok (VDict (dict_update d1 d2))
  | VList l1, VList l2 => Ok (VList (l1 ++ l2))
  | VStr s1, VStr s2 => Ok (VStr (s1 ++ s2))
  | _, _ => Exc (TypeError "unsupported operand type(s) for +")
  end.

Fixpoint combine_from (result : option pyval) (args : list (option pyval))
  : outcome (option pyval) :=
  match args with
  | [] => Ok result
  | None :: rest => combine_from result rest
  | Some value :: rest =>
      match result with
      | None => combine_from (Some value) rest
      | Some r => obind (merge_values r value) (fun r' => combine_from (Some r') rest)
      end
  end.

Definition combine (args : list (option pyval)) : outcome (option pyval) :=
  combine_from None args.

(** Modelled from the spec: the converters [force_non_lazy],
    [force_non_lazy_list] and [force_non_lazy_dict] of anymail/utils.py
    (not in src) force deferred (lazy) text to concrete text; this model
    has no lazy text, so they return their argument. *)
Definition force_non_lazy (v : pyval) : outcome pyval := Ok v.
Definition force_non_lazy_list (v : pyval) : outcome pyval := Ok v.
Definition force_non_lazy_dict (v : pyval) : outcome pyval := Ok v.

(** A merge rule [(attr, combiner, converter)]: the combiner is [None],
    [last] or [combine]; the converter is [None], a callable, or the name of
    a Payload method. *)
Inductive combiner := CombNone | CombLast | CombCombine.

Inductive converter :=
| ConvNone
| ConvCallable (f : pyval -> outcome pyval)
| ConvMethod (name : string).

Record attr_rule := mk_rule {
  rule_attr : string;
  rule_combiner : combiner;
  rule_converter : converter
}.

Definition base_message_attrs : list attr_rule := [
  mk_rule "from_email" CombLast (ConvMethod "parsed_email");
  mk_rule "to" CombCombine (ConvMethod "parsed_emails");
  mk_rule "cc" CombCombine (ConvMethod "parsed_emails");
  mk_rule "bcc" CombCombine (ConvMethod "parsed_emails");
  mk_rule "subject" CombLast (ConvCallable force_non_lazy);
  mk_rule "reply_to" CombCombine (ConvMethod "parsed_emails");
  mk_rule "extra_headers" CombCombine (ConvCallable force_non_lazy_dict);
  mk_rule "body" CombLast (ConvCallable force_non_lazy);
  mk_rule "alternatives" CombCombine (ConvMethod "prepped_alternatives");
  mk_rule "attachments" CombCombine (ConvMethod "prepped_attachments")].

Definition anymail_message_attrs : list attr_rule := [
  mk_rule "metadata" CombCombine (ConvCallable force_non_lazy_dict);
  mk_rule "send_at" CombLast (ConvMethod "aware_datetime");
  mk_rule "tags" CombCombine (ConvCallable force_non_lazy_list);
  mk_rule "track_clicks" CombLast ConvNone;
  mk_rule "track_opens" CombLast ConvNone;
  mk_rule "template_id" CombLast (ConvCallable force_non_lazy);
  mk_rule "merge_data" CombCombine (ConvCallable force_non_lazy_dict);
  mk_rule "merge_global_data" CombCombine (ConvCallable force_non_lazy_dict);
  mk_rule "esp_extra" CombCombine (ConvCallable force_non_lazy_dict)].

(** [getattr(message, attr, UNSET)] *)
Definition getattr_message (m : message) (attr : string) : option pyval :=
  dict_get (msg_attrs m) attr.

(** The setter the loop calls for [attr]: [body] is routed by
    [message.content_subtype], every other attribute to [set_<attr>]. *)
Definition setter_name (m : message) (attr : string) : string :=
  if String.eqb attr "body"
  then (if String.eqb (content_subtype m) "html" then "set_html_body"
        else "set_text_body")
  else "set_" ++ attr.

Section Payload.

(** The payload object's state (provider-owned). *)
Variable P : Type.

(** [self.backend] and [self.esp_name]. *)
Variable backend : backend_cfg.

(** Converter methods the payload offers ([getattr(self, converter)]). *)
Variable converter_method : string -> option (pyval -> outcome pyval).

(** The methods the provider's Payload subclass defines (overrides), by
    name; arguments are passed as a list. *)
Variable overrides : string -> option (list pyval -> P -> outcome P).

Definition unsupported_feature (feature : string) : outcome unit :=
  if negb (ignore_unsupported_features backend)
  then Exc (AnymailUnsupportedFeature
              (esp_name backend ++ " does not support " ++ feature))
  else Ok tt.

Definition not_implemented (meth : string) : outcome P :=
  Exc (builtin_exn "NotImplementedError" ("must implement " ++ meth)).

Definition unsupported (feature : string) (p : P) : outcome P :=
  obind (unsupported_feature feature) (fun _ => Ok p).

(** Base methods that call no other overridable method. *)
Definition base_method0 (name : string) (args : list pyval) (p : P)
  : option (outcome P) :=
  match name with
  | "set_from_email" | "add_recipient" | "set_subject" | "set_text_body"
  | "set_html_body" | "add_attachment" => Some (not_implemented name)
  | "set_reply_to" => Some (unsupported "reply_to" p)
  | "set_extra_headers" => Some (unsupported "extra_headers" p)
  | "add_alternative" =>
      match args with
      | [_; VStr mimetype] =>
          Some (unsupported ("alternative part with type '" ++ mimetype ++ "'") p)
      | _ => Some (Exc (TypeError "add_alternative"))
      end
  | "set_metadata" => Some (unsupported "metadata" p)
  | "set_send_at" => Some (unsupported "send_at" p)
  | "set_tags" => Some (unsupported "tags" p)
  | "set_track_clicks" => Some (unsupported "track_clicks" p)
  | "set_track_opens" => Some (unsupported "track_opens" p)
  | "set_template_id" => Some (unsupported "template_id" p)
  | "set_merge_data" => Some (unsupported "merge_data" p)
  | "set_merge_global_data" => Some (unsupported "merge_global_data" p)
  | "set_esp_extra" => Some (unsupported "esp_extra" p)
  | _ => None
  end.

(** [getattr(self, name)] called with [args]: the provider's override if any, else the
    base method ([AttributeError] when neither exists). *)
Definition call_with (base : string -> list pyval -> P -> option (outcome P))
    (name : string) (args : list pyval) (p : P) : outcome P :=
  match overrides name with
  | Some f => f args p
  | None =>
      match base name args p with
      | Some r => r
      | None => Exc (AttributeError name)
      end
  end.

Definition call0 := call_with base_method0.

(** [for x in xs: f(x)] threading the payload state. *)
Fixpoint for_each (f : pyval -> P -> outcome P) (xs : list pyval) (p : P)
  : outcome P :=
  match xs with
  | [] => Ok p
  | x :: rest => obind (f x p) (for_each f rest)
  end.

(** [set_recipients], [set_alternatives] and [set_attachments]. *)
Definition base_method1 (name : string) (args : list pyval) (p : P)
  : option (outcome P) :=
  match name, args with
  | "set_recipients", [recipient_type; VList emails] =>
      Some (for_each (fun email => call0 "add_recipient" [recipient_type; email])
                     emails p)
  | "set_alternatives", [VList alternatives] =>
      Some (for_each (fun alt p =>
              match alt with
              | VList [content; VStr mimetype] =>
                  if String.eqb mimetype "text/html"
                  then call0 "set_html_body" [content] p
                  else call0 "add_alternative" [content; VStr mimetype] p
              | _ => Exc (TypeError "cannot unpack alternative")
              end) alternatives p)
  | "set_attachments", [VList attachments] =>
      Some (for_each (fun a => call0 "add_attachment" [a]) attachments p)
  | ("set_recipients" | "set_alternatives" | "set_attachments"), _ =>
      Some (Exc (TypeError name))
  | _, _ => base_method0 name args p
  end.

Definition call1 := call_with base_method1.

(** [set_to], [set_cc], [set_bcc]. *)
Definition base_method2 (name : string) (args : list pyval) (p : P)
  : option (outcome P) :=
  match name, args with
  | "set_to", [emails] => Some (call1 "set_recipients" [VStr "to"; emails] p)
  | "set_cc", [emails] => Some (call1 "set_recipients" [VStr "cc"; emails] p)
  | "set_bcc", [emails] => Some (call1 "set_recipients" [VStr "bcc"; emails] p)
  | _, _ => base_method1 name args p
  end.

Definition call_method := call_with base_method2.

End Payload.

Section PayloadInit.

Variable P : Type.
Variable backend : backend_cfg.
Variable converter_method : string -> option (pyval -> outcome pyval).
Variable overrides : string -> option (list pyval -> P -> outcome P).

(** The provider's [init_payload] and [esp_message_attrs]. *)
Variable init_payload : outcome P.
Variable esp_message_attrs : list attr_rule.

(** Steps (2) and (3) of one iteration of the loop of [__init__]. *)
Definition combined_value (m : message) (defaults : list (string * pyval))
    (r : attr_rule) : outcome (option pyval) :=
  let value := getattr_message m (rule_attr r) in
  match rule_combiner r with
  | CombNone => Ok value
  | CombLast => Ok (last [dict_get defaults (rule_attr r); value])
  | CombCombine => combine [dict_get defaults (rule_attr r); value]
  end.

Definition convert (conv : converter) (v : pyval) : outcome pyval :=
  match conv with
  | ConvNone => Ok v
  | ConvCallable f => f v
  | ConvMethod name =>
      match converter_method name with
      | Some f => f v
      | None => Exc (AttributeError name)
      end
  end.

(** One iteration of the loop: the setter call it makes ([None]: the value
    is [UNSET] and no setter is called). *)
Definition attr_step (m : message) (defaults : list (string * pyval))
    (r : attr_rule) : outcome (option (string * pyval)) :=
  obind (combined_value m defaults r) (fun value =>
    match value with
    | None => Ok None
    | Some v =>
        obind (convert (rule_converter r) v)
              (fun v' => Ok (Some (setter_name m (rule_attr r), v')))
    end).

Definition has_method (name : string) (args : list pyval) (p : P) : bool :=
  match overrides name, base_method2 P backend overrides name args p with
  | None, None => false
  | _, _ => true
  end.

(** The loop of [__init__]: the outcome, and the setter calls made. *)
Fixpoint payload_loop (m : message) (defaults : list (string * pyval))
    (rules : list attr_rule) (p : P) : outcome P * list (string * pyval) :=
  match rules with
  | [] => (Ok p, [])
  | r :: rest =>
      match attr_step m defaults r with
      | Exc e => (Exc e, [])
      | Ok None => payload_loop m defaults rest p
      | Ok (Some (name, v)) =>
          if negb (has_method name [v] p) then (Exc (AttributeError name), [])
          else match call_method P backend overrides name [v] p with
               | Exc e => (Exc e, [(name, v)])
               | Ok p' =>
                   let (o, calls) := payload_loop m defaults rest p' in
                   (o, (name, v) :: calls)
               end
      end
  end.

Definition BasePayload_init (m : message) (defaults : list (string * pyval))
  : outcome P * list (string * pyval) :=
  match init_payload with
  | Exc e => (Exc e, [])
  | Ok p =>
      payload_loop m defaults
        (base_message_attrs ++ anymail_message_attrs ++ esp_message_attrs) p
  end.

End PayloadInit.

(** ** [BasePayload.aware_datetime] *)

Definition is_naive (dt : datetime) : bool :=
  match dt_tzinfo dt with None => true | Some _ => false end.

(** [dt.replace(tzinfo=tz)] *)
Definition replace_tzinfo (dt : datetime) (tz : string) : datetime :=
  mk_datetime (dt_year dt) (dt_month dt) (dt_day dt) (dt_hour dt)
    (dt_minute dt) (dt_second dt) (dt_microsecond dt) (Some tz).

Definition utc : string := "UTC".

Section AwareDatetime.

(** [datetime.utcfromtimestamp] on an integer (platform dependent: a
    datetime, or [ValueError] / [OverflowError] out of range). *)
Variable utcfromtimestamp : Z -> outcome datetime.

(** Django's [make_aware(dt, tz)] attaches [tz] to the naive [dt]; a pytz
    zone may refuse a non-existent or ambiguous local time. *)
Variable localize_error : datetime -> string -> option pyexn.

(** Django's [get_current_timezone()]. *)
Variable current_timezone : string.

Definition make_aware (dt : datetime) (tz : string) : outcome datetime :=
  match localize_error dt tz with
  | Some e => Exc e
  | None => Ok (replace_tzinfo dt tz)
  end.

(** Python's [datetime.utcfromtimestamp(value)]: only numbers are
    timestamps ([bool] is an [int]); anything else is a [TypeError]. *)
Definition py_utcfromtimestamp (value : pyval) : outcome datetime :=
  match value with
  | VInt z => utcfromtimestamp z
  | VBool b => utcfromtimestamp (if b then 1 else 0)%Z
  | _ => Exc (TypeError "an integer is required")
  end.

Definition aware_datetime (value : pyval) : outcome pyval :=
  let dt_or_value :=
    match value with
    | VDateTime dt => Ok (inl dt)
    | VDate y m d => Ok (inl (mk_datetime y m d 0 0 0 0 None))
    | _ =>
        match py_utcfromtimestamp value with
        | Ok dt => Ok (inl (replace_tzinfo dt utc))
        | Exc e =>
            if isinstance e "TypeError" || isinstance e "ValueError"
            then Ok (inr value)
            else Exc e
        end
    end in
  match dt_or_value with
  | Exc e => Exc e
  | Ok (inr v) => Ok v
  | Ok (inl dt) =>
      if is_naive dt
      then obind (make_aware dt current_timezone) (fun dt' => Ok (VDateTime dt'))
      else Ok (VDateTime dt)
  end.

End AwareDatetime.

(** * Properties *)

(** ** Timestamps *)

Section AwareDatetimeProofs.

Variable utcfromtimestamp : Z -> outcome datetime.
Variable localize_error : datetime -> string -> option pyexn.
Variable current_timezone : string.

Local Notation aware := (aware_datetime utcfromtimestamp localize_error current_timezone).

(** The argument types [aware_datetime] recognises. *)
Definition recognized (v : pyval) : bool :=
  match v with
  | VDateTime _ | VDate _ _ _ | VInt _ | VBool _ => true
  | _ => false
  end.

Lemma replace_tzinfo_aware dt tz : is_naive (replace_tzinfo dt tz) = false.
Proof. reflexivity. Qed.

Lemma aware_datetime_aware_input dt :
  is_naive dt = false -> aware (VDateTime dt) = Ok (VDateTime dt).
Proof.
  destruct dt as [y mo d h mi sec us [tz | ]]; simpl; intros H;
    [reflexivity | discriminate H].
Qed.

Lemma make_aware_aware dt tz dt' :
  make_aware localize_error dt tz = Ok dt' -> is_naive dt' = false.
Proof.
  unfold make_aware. destruct (localize_error dt tz); intros H; inversion H.
  reflexivity.
Qed.

Lemma aware_datetime_result x r :
  aware x = Ok r -> r = x \/ exists dt, r = VDateTime dt /\ is_naive dt = false.
Proof.
  intros H. unfold aware_datetime in H.
  destruct x as [ | b | z | s | l | d | y m dd | dt | e ];
  repeat match type of H with
  | context [py_utcfromtimestamp ?u ?v] =>
      destruct (py_utcfromtimestamp u v) eqn:?
  | context [if ?c then _ else _] => destruct c eqn:?
  | context [make_aware ?a ?b ?c] => destruct (make_aware a b c) eqn:?
  end; simpl in H; try discriminate H; inversion H; subst;
  eauto using make_aware_aware.
Qed.

(** C9: [aware_datetime] is idempotent.  An already zone-aware datetime is
    returned unchanged; whenever [aware_datetime x] returns a value [r],
    converting [r] again returns [r]; and an argument of a type it does not
    recognise (not a datetime, date or number) is returned unchanged. *)
Theorem aware_datetime_idempotent :
  (forall dt, is_naive dt = false -> aware (VDateTime dt) = Ok (VDateTime dt)) /\
  (forall x r, aware x = Ok r -> aware r = Ok r) /\
  (forall x, recognized x = false -> aware x = Ok x).
Proof.
  split; [exact aware_datetime_aware_input | split].
  - intros x r H. destruct (aware_datetime_result x r H) as [-> | [dt [-> Hdt]]].
    + exact H.
    + apply aware_datetime_aware_input; exact Hdt.
  - intros x Hx. destruct x; try discriminate Hx; reflexivity.
Qed.

End AwareDatetimeProofs.

(** A zone for the examples: Django's current time zone is a fixed offset
    of the given name, and every integer is a timestamp in range. *)
Definition example_utcfromtimestamp (z : Z) : outcome datetime :=
  Ok (mk_datetime 1970 1 1 0 0 z 0 None).

Definition example_no_localize_error (_ : datetime) (_ : string) : option pyexn :=
  None.

(** A calendar date is midnight of that date in the current time zone. *)
Example aware_datetime_date_midnight :
  aware_datetime example_utcfromtimestamp example_no_localize_error "UTC+02:00"
    (VDate 2024 3 1)
  = Ok (VDateTime (mk_datetime 2024 3 1 0 0 0 0 (Some "UTC+02:00"))).
Proof. reflexivity. Qed.

Lemma aware_datetime_idempotent_witness :
  aware_datetime example_utcfromtimestamp example_no_localize_error "UTC+02:00"
    (VDateTime (mk_datetime 2024 3 1 0 0 0 0 (Some "UTC+02:00")))
  = Ok (VDateTime (mk_datetime 2024 3 1 0 0 0 0 (Some "UTC+02:00"))).
Proof.
  apply (proj1 (proj2 (aware_datetime_idempotent example_utcfromtimestamp
                         example_no_localize_error "UTC+02:00"))
           (VDate 2024 3 1)).
  reflexivity.
Defined.

(** ** Dicts *)

Lemma dict_get_set {V} (d : list (string * V)) k v k' :
  dict_get (dict_set d k v) k' = if String.eqb k' k then Some v else dict_get d k'.
Proof.
  induction d as [ | [k0 v0] t IH]; simpl.
  - reflexivity.
  - destruct (String.eqb k k0) eqn:E; simpl.
    + apply String.eqb_eq in E; subst k0.
      destruct (String.eqb k' k); reflexivity.
    + rewrite IH. destruct (String.eqb k' k0) eqn:E0; [ | reflexivity].
      apply String.eqb_eq in E0; subst k0.
      destruct (String.eqb k' k) eqn:E1; [ | reflexivity].
      apply String.eqb_eq in E1; subst k. rewrite String.eqb_refl in E.
      discriminate E.
Qed.

Lemma dict_get_notin {V} (d : list (string * V)) k :
  ~ In k (map fst d) -> dict_get d k = None.
Proof.
  induction d as [ | [k0 v0] t IH]; simpl; intros H; [reflexivity | ].
  destruct (String.eqb k k0) eqn:E.
  - apply String.eqb_eq in E; subst. exfalso; apply H; left; reflexivity.
  - apply IH. intros Hin; apply H; right; exact Hin.
Qed.

(** [d1.update(d2)]: a key of [d2] takes [d2]'s value, any other key keeps
    [d1]'s. *)
Lemma dict_get_update {V} (d1 d2 : list (string * V)) k :
  NoDup (map fst d2) ->
  dict_get (dict_update d1 d2) k =
  match dict_get d2 k with Some x => Some x | None => dict_get d1 k end.
Proof.
  unfold dict_update. revert d1.
  induction d2 as [ | [k2 v2] t IH]; intros d1 Hnd; simpl; [reflexivity | ].
  inversion Hnd as [ | ? ? Hnotin Hnd']; subst.
  rewrite (IH _ Hnd'). rewrite dict_get_set.
  destruct (String.eqb k k2) eqn:E.
  - apply String.eqb_eq in E; subst k2. rewrite (dict_get_notin t k Hnotin).
    reflexivity.
  - destruct (dict_get t k); reflexivity.
Qed.

(** ** Merge rules *)

(** C5: under the override strategy ([last]), a present caller value is
    what the setter receives, converted; an absent caller value with a
    present default makes the setter receive the converted default; when
    both are absent the rule calls no setter: the loop goes on with the next
    rule. *)
Theorem override_rule_setter_value :
  forall (P : Type) backend converter_method overrides m defaults r,
  rule_combiner r = CombLast ->
  (forall v, getattr_message m (rule_attr r) = Some v ->
     attr_step converter_method m defaults r =
     obind (convert converter_method (rule_converter r) v)
           (fun v' => Ok (Some (setter_name m (rule_attr r), v')))) /\
  (forall d, getattr_message m (rule_attr r) = None ->
     dict_get defaults (rule_attr r) = Some d ->
     attr_step converter_method m defaults r =
     obind (convert converter_method (rule_converter r) d)
           (fun d' => Ok (Some (setter_name m (rule_attr r), d')))) /\
  (getattr_message m (rule_attr r) = None ->
     dict_get defaults (rule_attr r) = None ->
     forall rest (p : P),
     payload_loop P backend converter_method overrides m defaults (r :: rest) p =
     payload_loop P backend converter_method overrides m defaults rest p).
Proof.
  intros P backend cm ov m defaults r Hc.
  unfold attr_step, combined_value. rewrite Hc. simpl.
  split; [ | split].
  - intros v Hv. rewrite Hv. reflexivity.
  - intros d Hv Hd. rewrite Hv, Hd. reflexivity.
  - intros Hv Hd rest p. simpl. unfold attr_step, combined_value.
    rewrite Hc, Hv, Hd. reflexivity.
Qed.

Lemma override_rule_setter_value_witness :
  attr_step (fun _ => None)
    (mk_message 0 [] [("subject", VStr "Hi")] "plain")
    [("subject", VStr "Default")]
    (mk_rule "subject" CombLast (ConvCallable force_non_lazy))
  = Ok (Some ("set_subject", VStr "Hi")).
Proof.
  exact (proj1 (override_rule_setter_value unit
           (mk_backend "Test" false false false []) (fun _ => None) (fun _ => None)
           (mk_message 0 [] [("subject", VStr "Hi")] "plain")
           [("subject", VStr "Default")]
           (mk_rule "subject" CombLast (ConvCallable force_non_lazy))
           eq_refl) (VStr "Hi") eq_refl).
Defined.

(** C6: under the merge strategy ([combine]), when both the default [D]
    and the caller value [V] are present, two mappings give their key union
    with [V]'s value on every key of [V], and two sequences give [D]
    followed by [V]; when only one side is present it is the result,
    unchanged. *)
Theorem merge_rule_combined_value :
  forall m defaults r,
  rule_combiner r = CombCombine ->
  (forall d v, dict_get defaults (rule_attr r) = Some (VDict d) ->
     getattr_message m (rule_attr r) = Some (VDict v) ->
     NoDup (map fst v) ->
     exists res, combined_value m defaults r = Ok (Some (VDict res)) /\
       forall k, dict_get res k =
                 match dict_get v k with Some x => Some x | None => dict_get d k end) /\
  (forall d v, dict_get defaults (rule_attr r) = Some (VList d) ->
     getattr_message m (rule_attr r) = Some (VList v) ->
     combined_value m defaults r = Ok (Some (VList (d ++ v)))) /\
  (forall d, dict_get defaults (rule_attr r) = Some d ->
     getattr_message m (rule_attr r) = None ->
     combined_value m defaults r = Ok (Some d)) /\
  (forall v, dict_get defaults (rule_attr r) = None ->
     getattr_message m (rule_attr r) = Some v ->
     combined_value m defaults r = Ok (Some v)).
Proof.
  intros m defaults r Hc. unfold combined_value. rewrite Hc.
  split; [ | split; [ | split]].
  - intros d v Hd Hv Hnd. rewrite Hd, Hv.
    exists (dict_update d v). split; [reflexivity | ].
    intros k. apply dict_get_update; exact Hnd.
  - intros d v Hd Hv. rewrite Hd, Hv. reflexivity.
  - intros d Hd Hv. rewrite Hd, Hv. reflexivity.
  - intros v Hd Hv. rewrite Hd, Hv. reflexivity.
Qed.

Lemma merge_rule_combined_value_witness :
  exists res,
    combined_value (mk_message 0 [] [("metadata", VDict [("b", VInt 3); ("c", VInt 4)])] "plain")
      [("metadata", VDict [("a", VInt 1); ("b", VInt 2)])]
      (mk_rule "metadata" CombCombine (ConvCallable force_non_lazy_dict))
    = Ok (Some (VDict res)) /\
    forall k, dict_get res k =
      match dict_get [("b", VInt 3); ("c", VInt 4)] k with
      | Some x => Some x
      | None => dict_get [("a", VInt 1); ("b", VInt 2)] k
      end.
Proof.
  apply (proj1 (merge_rule_combined_value
           (mk_message 0 [] [("metadata", VDict [("b", VInt 3); ("c", VInt 4)])] "plain")
           [("metadata", VDict [("a", VInt 1); ("b", VInt 2)])]
           (mk_rule "metadata" CombCombine (ConvCallable force_non_lazy_dict))
           eq_refl)); try reflexivity.
  simpl. constructor; [ | constructor; [ | constructor]]; simpl; intuition discriminate.
Defined.

Example combine_metadata_example :
  combine [Some (VDict [("a", VInt 1); ("b", VInt 2)]);
           Some (VDict [("b", VInt 3); ("c", VInt 4)])]
  = Ok (Some (VDict [("a", VInt 1); ("b", VInt 3); ("c", VInt 4)])).
Proof. reflexivity. Qed.

(** ** Unsupported features *)

Definition tags_rule : attr_rule :=
  mk_rule "tags" CombCombine (ConvCallable force_non_lazy_list).

(** C7: [unsupported_feature] raises [AnymailUnsupportedFeature] unless
    [ignore_unsupported_features] is set, and is then a no-op.  So a message
    with [tags=["x"]] built by a Payload that does not override [set_tags]
    calls the base [set_tags], which in permissive mode returns with the
    payload unchanged: the tags are dropped and building goes on. *)
Theorem unsupported_feature_permissive :
  forall backend feature,
  (ignore_unsupported_features backend = false ->
     unsupported_feature backend feature =
     Exc (AnymailUnsupportedFeature
            (esp_name backend ++ " does not support " ++ feature))) /\
  (ignore_unsupported_features backend = true ->
     unsupported_feature backend feature = Ok tt) /\
  (forall (P : Type) converter_method overrides m defaults rest (p : P),
     ignore_unsupported_features backend = true ->
     overrides "set_tags" = None ->
     getattr_message m "tags" = Some (VList [VStr "x"]) ->
     dict_get defaults "tags" = None ->
     payload_loop P backend converter_method overrides m defaults (tags_rule :: rest) p =
     (let (o, calls) :=
        payload_loop P backend converter_method overrides m defaults rest p in
      (o, ("set_tags", VList [VStr "x"]) :: calls))).
Proof.
  intros backend feature. unfold unsupported_feature.
  split; [ | split].
  - intros H. rewrite H. reflexivity.
  - intros H. rewrite H. reflexivity.
  - intros P cm ov m defaults rest p Hign Hov Htags Hdef.
    simpl. unfold attr_step, combined_value. simpl.
    rewrite Htags, Hdef. simpl.
    replace (setter_name m "tags") with "set_tags" by reflexivity.
    unfold has_method, call_method, call_with. rewrite Hov. simpl.
    unfold unsupported, unsupported_feature. rewrite Hign. simpl.
    reflexivity.
Qed.

Lemma unsupported_feature_permissive_witness :
  payload_loop unit (mk_backend "Test" true false false []) (fun _ => None)
    (fun _ => None) (mk_message 0 ["a@example.com"] [("tags", VList [VStr "x"])] "plain")
    [] [tags_rule] tt
  = (Ok tt, [("set_tags", VList [VStr "x"])]).
Proof.
  rewrite (proj2 (proj2 (unsupported_feature_permissive
             (mk_backend "Test" true false false []) "tags"))
             unit (fun _ => None) (fun _ => None)
             (mk_message 0 ["a@example.com"] [("tags", VList [VStr "x"])] "plain")
             [] [] tt eq_refl eq_refl eq_refl eq_refl).
  reflexivity.
Defined.

(** ** Sending *)

(** A signal response that [run_post_send] re-raises. *)
Definition exception_response (v : pyval) : bool :=
  match v with VExn e => isinstance e "Exception" | _ => false end.

(** An observer that returns normally, with a response that is not an
    exception. *)
Definition quiet_receiver {R} (rcv : message -> anymail_status R -> outcome pyval)
  : Prop :=
  forall m st, exists v, rcv m st = Ok v /\ exception_response v = false.

Definition all_refused (statuses : list string) : bool := issubset_refused statuses.

Lemma in_dedup x l : In x (dedup l) -> In x l.
Proof.
  induction l as [ | y t IH]; simpl; [tauto | ].
  destruct (existsb (String.eqb y) t); simpl; intuition.
Qed.

Lemma in_values_dict_set {V} (d : list (string * V)) k v x :
  In x (map snd (dict_set d k v)) -> In x (map snd d) \/ x = v.
Proof.
  induction d as [ | [k0 v0] t IH]; simpl.
  - intuition.
  - destruct (String.eqb k k0); simpl; intuition.
Qed.

Lemma in_values_dict_update {V} (d1 d2 : list (string * V)) x :
  In x (map snd (dict_update d1 d2)) -> In x (map snd d1) \/ In x (map snd d2).
Proof.
  unfold dict_update. revert d1.
  induction d2 as [ | [k v] t IH]; intros d1 H; simpl in *; [tauto | ].
  destruct (IH _ H) as [H1 | H1]; [ | tauto].
  destruct (in_values_dict_set d1 k v x H1); subst; tauto.
Qed.

Lemma all_refused_status rs :
  all_refused (map snd rs) = true ->
  issubset_refused (dedup (map snd (dict_update [] rs))) = true.
Proof.
  unfold all_refused, issubset_refused. rewrite !forallb_forall.
  intros H x Hx. apply in_dedup in Hx.
  destruct (in_values_dict_update [] rs x Hx) as [[] | Hx']. apply H, Hx'.
Qed.

(** Number of occurrences of an event in a trace. *)
Definition count_event (ev : event) (t : list event) : nat :=
  length (filter (event_eqb ev) t).

Lemma count_event_app ev t1 t2 :
  count_event ev (t1 ++ t2) = count_event ev t1 + count_event ev t2.
Proof. unfold count_event. rewrite filter_app, length_app. reflexivity. Qed.

(** [m] only appends to the trace, and never the event [ev]. *)
Definition grows_without {R A} (ev : event) (m : M R A) : Prop :=
  forall s, exists t, st_trace (snd (m s)) = (st_trace s ++ t)%list /\
                      count_event ev t = 0.

Lemma grows_ret {R A} ev (a : A) : grows_without (R:=R) ev (ret a).
Proof. intros s. exists []. rewrite app_nil_r. split; reflexivity. Qed.

Lemma grows_raise {R A} ev e : grows_without (R:=R) (A:=A) ev (raise e).
Proof. intros s. exists []. rewrite app_nil_r. split; reflexivity. Qed.

Lemma grows_lift {R A} ev (o : outcome A) : grows_without (R:=R) ev (lift o).
Proof. intros s. exists []. rewrite app_nil_r. split; reflexivity. Qed.

Lemma grows_attach {R} ev id (st : anymail_status R) : grows_without ev (attach id st).
Proof. intros s. exists []. rewrite app_nil_r. split; reflexivity. Qed.

Lemma grows_get_attached {R} ev id : grows_without (R:=R) ev (get_attached id).
Proof.
  intros s. exists []. rewrite app_nil_r. unfold get_attached.
  destruct (attached_get (st_attached s) id); split; reflexivity.
Qed.

Lemma grows_emit {R} ev ev' :
  event_eqb ev ev' = false -> grows_without (R:=R) ev (emit ev').
Proof.
  intros H s. exists [ev']. unfold count_event. simpl. rewrite H. split; reflexivity.
Qed.

Lemma grows_bind {R A B} ev (m : M R A) (k : A -> M R B) :
  grows_without ev m -> (forall a, grows_without ev (k a)) ->
  grows_without ev (bind m k).
Proof.
  intros Hm Hk s. unfold bind.
  destruct (Hm s) as (t1 & H1 & C1). destruct (m s) as [[a | e] s1]; simpl in H1.
  - destruct (Hk a s1) as (t2 & H2 & C2). exists (t1 ++ t2)%list.
    rewrite H2, H1, app_assoc, count_event_app, C1, C2. split; reflexivity.
  - exists t1. split; assumption.
Qed.

Lemma grows_try_except {R A} ev (m : M R A) (h : pyexn -> M R A) :
  grows_without ev m -> (forall e, grows_without ev (h e)) ->
  grows_without ev (try_except m h).
Proof.
  intros Hm Hh s. unfold try_except.
  destruct (Hm s) as (t1 & H1 & C1). destruct (m s) as [[a | e] s1]; simpl in H1.
  - exists t1. split; assumption.
  - destruct (Hh e s1) as (t2 & H2 & C2). exists (t1 ++ t2)%list.
    rewrite H2, H1, app_assoc, count_event_app, C1, C2. split; reflexivity.
Qed.

Create HintDb grows.
#[export] Hint Resolve grows_ret grows_raise grows_lift grows_attach
  grows_get_attached : grows.

Ltac grows_step :=
  match goal with
  | |- grows_without _ (bind _ _) => apply grows_bind; [ | intros ]
  | |- grows_without _ (try_except _ _) => apply grows_try_except; [ | intros ]
  | |- grows_without _ (emit _) => apply grows_emit; reflexivity
  | |- grows_without _ (match ?x with _ => _ end) => destruct x
  | |- grows_without _ (if ?b then _ else _) => destruct b
  | |- grows_without _ _ => solve [eauto with grows]
  end.

Ltac grows_tac := repeat grows_step.

(** The events [send_messages] emits around the loop. *)
Definition session_event (ev : event) : bool :=
  match ev with EOpen | EClose => true | _ => false end.

Lemma session_event_eqb ev ev' :
  session_event ev = true -> session_event ev' = false -> event_eqb ev ev' = false.
Proof. destruct ev, ev'; simpl; congruence. Qed.

(** What [send_robust] collects for one receiver: its return value, or the
    exception it raised. *)
Definition robust_response (o : outcome pyval) : pyval :=
  match o with Ok v => v | Exc e => VExn e end.

(** The exception [run_post_send] re-raises: the first response that is an
    [Exception] instance. *)
Fixpoint first_exception (results : list pyval) : option pyexn :=
  match results with
  | [] => None
  | VExn e :: rest =>
      if isinstance e "Exception" then Some e else first_exception rest
  | _ :: rest => first_exception rest
  end.

(** Whether [send_robust] catches the outcome of one receiver call: a
    return, or a raised [Exception] (any other [BaseException] escapes). *)
Definition caught (o : outcome pyval) : bool :=
  match o with Ok _ => true | Exc e => isinstance e "Exception" end.

Section SendProofs.

Variables (payload response : Type).
Variable self : backend_cfg.
Variable pre_send_receivers : list (message -> outcome message).
Variable post_send_receivers :
  list (message -> anymail_status response -> outcome pyval).
Variable open_result : outcome bool.
Variable close_result : outcome unit.
Variable build_message_payload :
  message -> list (string * pyval) -> outcome payload.
Variable post_to_esp : payload -> message -> outcome response.
Variable parse_recipient_status :
  response -> payload -> message -> outcome (list (string * string)).

Local Notation send := (_send payload response self pre_send_receivers
  post_send_receivers build_message_payload post_to_esp parse_recipient_status).

Ltac monad_unfold :=
  unfold bind, ret, raise, lift, emit, attach, get_attached, try_except,
         try_finally in *.

Lemma send_robust_quiet rs k m st s :
  Forall quiet_receiver rs ->
  exists vs t,
    send_robust_from response k rs m st s =
      (Ok vs, mk_state (st_trace s ++ t) (st_attached s)) /\
    forallb (fun v => negb (exception_response v)) vs = true.
Proof.
  revert k s. induction rs as [ | rcv rest IH]; intros k s Hq; simpl.
  - exists [], []. rewrite app_nil_r. destruct s; split; reflexivity.
  - inversion Hq as [ | ? ? Hr Hrest]; subst.
    destruct (Hr m st) as (v & Hv & Hne).
    monad_unfold. rewrite Hv. simpl.
    destruct (IH (S k) (mk_state (st_trace s ++ [EPostSendReceiver k]) (st_attached s)) Hrest)
      as (vs & t & Heq & Hf).
    rewrite Heq. simpl.
    exists (v :: vs), (EPostSendReceiver k :: t). rewrite <- app_assoc. simpl.
    rewrite Hne, Hf. split; reflexivity.
Qed.

Lemma raise_exception_response_quiet vs s :
  forallb (fun v => negb (exception_response v)) vs = true ->
  raise_exception_response response vs s = (Ok tt, s).
Proof.
  induction vs as [ | v rest IH]; simpl; intros H; [reflexivity | ].
  apply andb_prop in H as [H1 H2].
  destruct v; try (apply IH; exact H2).
  simpl in H1. destruct (isinstance e "Exception"); [discriminate H1 | ].
  apply IH; exact H2.
Qed.

Lemma run_post_send_quiet obj m st s :
  attached_get (st_attached s) obj = Some st ->
  Forall quiet_receiver post_send_receivers ->
  exists t, run_post_send response post_send_receivers obj m s =
            (Ok tt, mk_state (st_trace s ++ ERunPostSend :: t) (st_attached s)).
Proof.
  intros Hst Hq. unfold run_post_send. monad_unfold. simpl. rewrite Hst.
  destruct (send_robust_quiet post_send_receivers 0 m st
              (mk_state (st_trace s ++ [ERunPostSend]) (st_attached s)) Hq)
    as (vs & t & Heq & Hf).
  rewrite Heq. rewrite (raise_exception_response_quiet vs _ Hf).
  exists t. simpl. rewrite <- app_assoc. reflexivity.
Qed.

Definition status_after (r : response) (rs : list (string * string)) :=
  set_recipient_status (set_esp_response AnymailStatus r) rs.

(** Once the pre-send hook lets a message with recipients through, the
    provider calls succeed and the post-send observers are quiet, [_send]
    reaches [raise_for_recipient_status] with the parsed status attached. *)
Lemma send_until_status_check m0 m p r rs s :
  signal_send pre_send_receivers m0 = Ok m ->
  msg_recipients m <> [] ->
  build_message_payload m (send_defaults self) = Ok p ->
  post_to_esp p m = Ok r ->
  parse_recipient_status r p m = Ok rs ->
  Forall quiet_receiver post_send_receivers ->
  exists t,
    send m0 s =
    bind (raise_for_recipient_status payload response self (status_after r rs) r p m)
         (fun _ => ret true)
         (mk_state (st_trace s ++ t)
            ((msg_id m0, status_after r rs)
             :: (msg_id m0, set_esp_response AnymailStatus r)
             :: (msg_id m0, AnymailStatus) :: st_attached s)).
Proof.
  intros Hpre Hrec Hbuild Hpost Hparse Hq.
  destruct (run_post_send_quiet (msg_id m0) m (status_after r rs)
     (mk_state ((((st_trace s ++ [EPreSend]) ++ [EBuildPayload]) ++ [EPostToEsp])
                  ++ [EParseStatus])
        ((msg_id m0, status_after r rs)
         :: (msg_id m0, set_esp_response AnymailStatus r)
         :: (msg_id m0, AnymailStatus) :: st_attached s)))
    as [t Ht]; [simpl; rewrite Nat.eqb_refl; reflexivity | exact Hq | ].
  exists ([EPreSend; EBuildPayload; EPostToEsp; EParseStatus; ERunPostSend] ++ t)%list.
  unfold _send, run_pre_send. monad_unfold. simpl.
  rewrite Hpre. simpl.
  destruct (msg_recipients m) as [ | x xs]; [contradiction Hrec; reflexivity | ].
  rewrite Hbuild, Hpost. simpl. rewrite Nat.eqb_refl. simpl.
  rewrite Hparse. simpl.
  unfold status_after in Ht. rewrite Ht. simpl. rewrite ?Nat.eqb_refl.
  repeat rewrite <- app_assoc. reflexivity.
Qed.

(** C10: when the parser reports no recipient at all, the aggregate status
    is the empty set, a subset of [{invalid, rejected}]: unless
    [ignore_recipient_status] is set, [raise_for_recipient_status] raises
    [AnymailRecipientsRefused]. *)
Theorem raise_for_recipient_status_no_recipients r p m s :
  ignore_recipient_status self = false ->
  exists e,
    fst (raise_for_recipient_status payload response self (status_after r []) r p m s)
    = Exc e /\ exn_class e = "AnymailRecipientsRefused".
Proof.
  intros Hign. unfold raise_for_recipient_status. monad_unfold. simpl.
  rewrite Hign. simpl. eexists; split; reflexivity.
Qed.

(** C1, as amended: for a message whose parsed per-recipient statuses are
    all in [{invalid, rejected}], and whose post-send observers neither
    raise nor return an exception, [_send] raises [AnymailRecipientsRefused]
    when [ignore_recipient_status] is unset, and otherwise returns [True]
    with that status attached to the message. *)
Theorem send_all_recipients_refused m0 m p r rs s :
  signal_send pre_send_receivers m0 = Ok m ->
  msg_recipients m <> [] ->
  build_message_payload m (send_defaults self) = Ok p ->
  post_to_esp p m = Ok r ->
  parse_recipient_status r p m = Ok rs ->
  all_refused (map snd rs) = true ->
  Forall quiet_receiver post_send_receivers ->
  (ignore_recipient_status self = false ->
     exists e, fst (send m0 s) = Exc e /\ exn_class e = "AnymailRecipientsRefused") /\
  (ignore_recipient_status self = true ->
     fst (send m0 s) = Ok true /\
     attached_get (st_attached (snd (send m0 s))) (msg_id m0) = Some (status_after r rs)).
Proof.
  intros Hpre Hrec Hbuild Hpost Hparse Hall Hq.
  destruct (send_until_status_check m0 m p r rs s Hpre Hrec Hbuild Hpost Hparse Hq)
    as [t Heq].
  rewrite Heq. unfold raise_for_recipient_status. monad_unfold.
  split; intros Hign; rewrite Hign; simpl.
  - rewrite (all_refused_status rs Hall). eexists; split; reflexivity.
  - rewrite Nat.eqb_refl. split; reflexivity.
Qed.

Section Growth.

Variable ev : event.
Hypothesis Hev : session_event ev = true.

Lemma event_eqb_session ev' :
  session_event ev' = false -> event_eqb ev ev' = false.
Proof. apply session_event_eqb; exact Hev. Qed.

Lemma grows_send_robust_from k rs m st :
  grows_without ev (send_robust_from response k rs m st).
Proof.
  revert k. induction rs as [ | r rest IH]; intros k; simpl; grows_tac;
    try (apply grows_emit; apply event_eqb_session; reflexivity); apply IH.
Qed.

Lemma grows_raise_exception_response vs :
  grows_without ev (raise_exception_response response vs).
Proof.
  induction vs as [ | v rest IH]; simpl; [grows_tac | ].
  destruct v; grows_tac; apply IH.
Qed.

Lemma grows_send m0 : grows_without ev (send m0).
Proof.
  pose proof (event_eqb_session EPreSend eq_refl).
  pose proof (event_eqb_session EBuildPayload eq_refl).
  pose proof (event_eqb_session EPostToEsp eq_refl).
  pose proof (event_eqb_session EParseStatus eq_refl).
  pose proof (event_eqb_session ERunPostSend eq_refl).
  pose proof (event_eqb_session ERaiseForStatus eq_refl).
  unfold _send, run_pre_send, run_post_send, raise_for_recipient_status.
  grows_tac; try (apply grows_emit; assumption);
    auto using grows_send_robust_from, grows_raise_exception_response.
Qed.

Lemma grows_send_loop msgs n :
  grows_without ev (send_loop payload response self pre_send_receivers
    post_send_receivers build_message_payload post_to_esp parse_recipient_status
    msgs n).
Proof.
  revert n. induction msgs as [ | m rest IH]; intros n; simpl; [grows_tac | ].
  apply grows_bind; [ | intros; apply IH].
  unfold send_one. apply grows_bind.
  - apply grows_emit, event_eqb_session. reflexivity.
  - intros _. apply grows_try_except; [apply grows_send | intros e; grows_tac].
Qed.

End Growth.

Local Notation send_batch := (send_messages payload response self
  pre_send_receivers post_send_receivers open_result close_result
  build_message_payload post_to_esp parse_recipient_status).

(** Whether this [send_messages] call opened a new session: the batch is
    not empty and [open()] returned [True]. *)
Definition session_created (msgs : list message) (o : outcome bool) : bool :=
  match msgs, o with
  | _ :: _, Ok true => true
  | _, _ => false
  end.

(** C2: [send_messages] calls [close()] exactly once if its own [open()]
    call returned [True], and never otherwise, whatever the outcome of the
    loop (normal completion or an exception); when it does, [close()] is the
    last call of the batch. *)
Theorem send_messages_close_once msgs s :
  exists t,
    st_trace (snd (send_batch msgs s)) = (st_trace s ++ t)%list /\
    count_event EClose t = (if session_created msgs open_result then 1 else 0) /\
    (session_created msgs open_result = true ->
       exists t0, t = (t0 ++ [EClose])%list).
Proof.
  destruct msgs as [ | m0 rest].
  - exists []. simpl. rewrite app_nil_r. repeat split. discriminate.
  - unfold send_messages. monad_unfold. cbn -[send_loop].
    destruct open_result as [[ | ] | e]; cbn -[send_loop].
    + destruct (grows_send_loop EClose eq_refl (m0 :: rest) 0
                  (mk_state (st_trace s ++ [EOpen]) (st_attached s)))
        as (t1 & H1 & C1).
      destruct (send_loop _ _ _ _ _ _ _ _ (m0 :: rest) 0 _) as [o s2] eqn:E.
      simpl in H1.
      exists (EOpen :: t1 ++ [EClose])%list.
      assert (Hc : count_event EClose (EOpen :: t1 ++ [EClose]) = 1).
      { unfold count_event in *. simpl. rewrite filter_app, length_app, C1.
        reflexivity. }
      destruct close_result; simpl; rewrite H1, <- !app_assoc; simpl;
        (split; [reflexivity | split; [exact Hc | ]]);
        intros _; exists (EOpen :: t1); reflexivity.
    + destruct (grows_send_loop EClose eq_refl (m0 :: rest) 0
                  (mk_state (st_trace s ++ [EOpen]) (st_attached s)))
        as (t1 & H1 & C1).
      destruct (send_loop _ _ _ _ _ _ _ _ (m0 :: rest) 0 _) as [o s2] eqn:E.
      simpl in H1. exists (EOpen :: t1).
      simpl. rewrite H1, <- app_assoc. simpl. repeat split; [exact C1 | discriminate].
    + exists [EOpen]. repeat split. discriminate.
Qed.

(** C3, as amended: in fail-silent mode, the loop of [send_messages]
    suppresses an exception of [_send] (the message counts as not sent and
    the loop goes on with the next message) exactly when it is an
    [AnymailError]; any other exception ends the loop, and [send_messages]
    raises it, unless [close()], run on the way out, raises an exception of
    its own, which then replaces it. *)
Theorem send_loop_fail_silently :
  fail_silently self = true ->
  (forall m rest n s,
     send_loop payload response self pre_send_receivers post_send_receivers
       build_message_payload post_to_esp parse_recipient_status (m :: rest) n s =
     match send m (mk_state (st_trace s ++ [ESend (msg_id m)]) (st_attached s)) with
     | (Ok sent, s1) =>
         send_loop payload response self pre_send_receivers post_send_receivers
           build_message_payload post_to_esp parse_recipient_status rest
           (if sent then S n else n) s1
     | (Exc e, s1) =>
         if isinstance e "AnymailError"
         then send_loop payload response self pre_send_receivers
                post_send_receivers build_message_payload post_to_esp
                parse_recipient_status rest n s1
         else (Exc e, s1)
     end) /\
  (forall msgs s created e s1,
     msgs <> [] ->
     open_result = Ok created ->
     send_loop payload response self pre_send_receivers post_send_receivers
       build_message_payload post_to_esp parse_recipient_status msgs 0
       (mk_state (st_trace s ++ [EOpen]) (st_attached s)) = (Exc e, s1) ->
     fst (send_batch msgs s) =
     (if created then match close_result with Ok _ => Exc e | Exc c => Exc c end
      else Exc e)).
Proof.
  intros Hfs. split.
  - intros m rest n s. simpl. unfold send_one. monad_unfold. simpl.
    destruct (send m _) as [[sent | e] s1]; [reflexivity | ].
    destruct (isinstance e "AnymailError"); [rewrite Hfs | ]; reflexivity.
  - intros [ | m0 rest] s created e s1 Hne Hopen Hloop; [contradiction Hne; reflexivity | ].
    unfold send_messages. monad_unfold. cbn -[send_loop]. rewrite Hopen.
    cbn -[send_loop]. rewrite Hloop.
    destruct created; [destruct close_result | ]; reflexivity.
Qed.

(** C4, as amended: a message that the pre-send hook lets through (no
    receiver cancels or raises) and that has no recipient then is not sent:
    [_send] returns [False] without error, and the only call it makes is
    the pre-send hook, with no payload built and no call to
    [post_to_esp]. *)
Theorem send_no_recipients m0 m s :
  signal_send pre_send_receivers m0 = Ok m ->
  msg_recipients m = [] ->
  send m0 s =
  (Ok false, mk_state (st_trace s ++ [EPreSend])
               ((msg_id m0, AnymailStatus) :: st_attached s)).
Proof.
  intros Hpre Hrec. unfold _send, run_pre_send. monad_unfold. simpl.
  rewrite Hpre. simpl. rewrite Hrec. reflexivity.
Qed.

Lemma send_robust_all rs k m st s :
  Forall (fun rcv => caught (rcv m st) = true) rs ->
  send_robust_from response k rs m st s =
  (Ok (map (fun rcv => robust_response (rcv m st)) rs),
   mk_state (st_trace s ++ map EPostSendReceiver (seq k (length rs)))
            (st_attached s)).
Proof.
  revert k s. induction rs as [ | rcv rest IH]; intros k s Hq; simpl.
  - rewrite app_nil_r. destruct s; reflexivity.
  - inversion Hq as [ | ? ? Hr Hrest]; subst. monad_unfold. simpl.
    destruct (rcv m st) as [v | e] eqn:Hv; simpl in Hr |- *.
    + rewrite (IH (S k) _ Hrest). simpl. rewrite <- app_assoc. reflexivity.
    + rewrite Hr. simpl.
      rewrite (IH (S k) _ Hrest). simpl. rewrite <- app_assoc. reflexivity.
Qed.

Lemma send_robust_escape before rcv after k m st s e :
  Forall (fun r => caught (r m st) = true) before ->
  rcv m st = Exc e -> isinstance e "Exception" = false ->
  send_robust_from response k (before ++ rcv :: after) m st s =
  (Exc e, mk_state (st_trace s ++ map EPostSendReceiver (seq k (S (length before))))
                   (st_attached s)).
Proof.
  intros Hb He Hne. revert k s.
  induction Hb as [ | r0 rest Hr Hrest IH]; intros k s; simpl; monad_unfold; simpl.
  - rewrite He, Hne. reflexivity.
  - destruct (r0 m st) as [v | e0] eqn:Hv; simpl in Hr |- *.
    + rewrite IH. simpl. rewrite <- app_assoc. reflexivity.
    + rewrite Hr. simpl. rewrite IH. simpl. rewrite <- app_assoc. reflexivity.
Qed.

Lemma raise_exception_response_first vs s :
  raise_exception_response response vs s =
  (match first_exception vs with Some e => Exc e | None => Ok tt end, s).
Proof.
  induction vs as [ | v rest IH]; simpl; [reflexivity | ].
  destruct v; try exact IH.
  destruct (isinstance e "Exception"); [reflexivity | exact IH].
Qed.

(** The calls [_send] makes up to the post-send observers. *)
Definition calls_to_post_send (n : nat) : list event :=
  [EPreSend; EBuildPayload; EPostToEsp; EParseStatus; ERunPostSend]
  ++ map EPostSendReceiver (seq 0 n).

(** C8, as amended: [_send] calls [run_post_send] before the
    all-recipients-refused check, and the post-send observers get the
    message as the pre-send hook left it.  While the observers return or
    raise [Exception]s, every observer runs; if a response is an exception
    (raised by its observer, or returned by it as a value), the first such
    response in receiver order is re-raised by [_send] and the check is not
    reached, otherwise the check follows the observers.  An observer that
    raises a [BaseException] that is not an [Exception] stops the observers
    at once (the ones after it never run), and [_send] raises it. *)
Theorem send_post_send_errors m0 m p r rs s :
  signal_send pre_send_receivers m0 = Ok m ->
  msg_recipients m <> [] ->
  build_message_payload m (send_defaults self) = Ok p ->
  post_to_esp p m = Ok r ->
  parse_recipient_status r p m = Ok rs ->
  (Forall (fun rcv => caught (rcv m (status_after r rs)) = true)
          post_send_receivers ->
   (forall e,
      first_exception (map (fun rcv => robust_response (rcv m (status_after r rs)))
                           post_send_receivers) = Some e ->
      fst (send m0 s) = Exc e /\
      st_trace (snd (send m0 s)) =
        (st_trace s ++ calls_to_post_send (length post_send_receivers))%list) /\
   (first_exception (map (fun rcv => robust_response (rcv m (status_after r rs)))
                         post_send_receivers) = None ->
      st_trace (snd (send m0 s)) =
        (st_trace s ++ calls_to_post_send (length post_send_receivers)
           ++ [ERaiseForStatus])%list)) /\
  (forall before rcv after e,
     post_send_receivers = (before ++ rcv :: after)%list ->
     Forall (fun r' => caught (r' m (status_after r rs)) = true) before ->
     rcv m (status_after r rs) = Exc e ->
     isinstance e "Exception" = false ->
     fst (send m0 s) = Exc e /\
     st_trace (snd (send m0 s)) =
       (st_trace s ++ calls_to_post_send (S (length before)))%list).
Proof.
  intros Hpre Hrec Hbuild Hpost Hparse.
  unfold _send, run_pre_send. monad_unfold. simpl.
  rewrite Hpre. simpl.
  destruct (msg_recipients m) as [ | x xs]; [contradiction Hrec; reflexivity | ].
  rewrite Hbuild, Hpost. simpl. rewrite ?Nat.eqb_refl. simpl.
  rewrite Hparse. simpl. rewrite ?Nat.eqb_refl. simpl.
  unfold run_post_send. monad_unfold. simpl. rewrite ?Nat.eqb_refl. simpl.
  fold (status_after r rs). unfold calls_to_post_send. split.
  - intros Hq. rewrite (send_robust_all _ _ _ _ _ Hq). simpl.
    rewrite raise_exception_response_first. split.
    + intros e He. rewrite He. simpl. split; [reflexivity | ].
      repeat rewrite <- app_assoc. reflexivity.
    + intros He. rewrite He. simpl. rewrite ?Nat.eqb_refl. simpl.
      unfold raise_for_recipient_status. monad_unfold.
      destruct (ignore_recipient_status self); simpl;
        [ | destruct (issubset_refused _)];
        simpl; repeat rewrite <- app_assoc; reflexivity.
  - intros before rcv after e Hsplit Hb He Hne. rewrite Hsplit.
    rewrite (send_robust_escape before rcv after 0 m _ _ e Hb He Hne). simpl.
    split; [reflexivity | ]. repeat rewrite <- app_assoc. reflexivity.
Qed.

End SendProofs.

(** ** More of the sending path *)

Lemma in_dedup_intro x l : In x l -> In x (dedup l).
Proof.
  induction l as [ | y t IH]; simpl; [tauto | ].
  intros [<- | H].
  - destruct (existsb (String.eqb y) t) eqn:E; [ | left; reflexivity].
    apply IH. apply existsb_exists in E as (z & Hz & Ez).
    apply String.eqb_eq in Ez; subst; exact Hz.
  - destruct (existsb (String.eqb y) t); [ | right]; apply IH, H.
Qed.

Lemma dict_get_In_nodup {V} (d : list (string * V)) k v :
  NoDup (map fst d) -> In (k, v) d -> dict_get d k = Some v.
Proof.
  induction d as [ | [k0 v0] t IH]; simpl; [tauto | ].
  intros Hnd [Heq | Hin]; inversion Hnd as [ | ? ? Hnotin Hnd']; subst.
  - injection Heq as -> ->. rewrite String.eqb_refl. reflexivity.
  - destruct (String.eqb k k0) eqn:E.
    + apply String.eqb_eq in E; subst k0. exfalso; apply Hnotin.
      apply (in_map fst) in Hin. exact Hin.
    + apply IH; assumption.
Qed.

Lemma dict_get_In_values {V} (d : list (string * V)) k v :
  dict_get d k = Some v -> In v (map snd d).
Proof.
  induction d as [ | [k0 v0] t IH]; simpl; [discriminate | ].
  destruct (String.eqb k k0); [injection 1 as <-; left; reflexivity | ].
  intros H; right; apply IH, H.
Qed.

(** A parsed status mapping with one recipient outside
    [{invalid, rejected}] does not make the aggregate status a subset of
    it. *)
Lemma not_all_refused_status rs email st :
  NoDup (map fst rs) -> In (email, st) rs ->
  st <> "invalid" -> st <> "rejected" ->
  issubset_refused (dedup (map snd (dict_update [] rs))) = false.
Proof.
  intros Hnd Hin Hi Hr.
  assert (Hget : dict_get (dict_update [] rs) email = Some st).
  { rewrite dict_get_update by exact Hnd.
    rewrite (dict_get_In_nodup rs email st Hnd Hin). reflexivity. }
  apply dict_get_In_values, in_dedup_intro in Hget.
  unfold issubset_refused. apply Bool.not_true_iff_false. intros H.
  rewrite forallb_forall in H. specialize (H st Hget).
  apply Bool.orb_true_iff in H as [H | H]; apply String.eqb_eq in H; contradiction.
Qed.

Lemma try_finally_ok {R A} (m : M R A) (fin : M R unit) s a s' :
  try_finally m fin s = (Ok a, s') -> fst (m s) = Ok a.
Proof.
  unfold try_finally. destruct (m s) as [o s1]. destruct (fin s1) as [[u | e] s2].
  - intros H; inversion H; reflexivity.
  - discriminate.
Qed.

Section SendExtras.

Variables (payload response : Type).
Variable self : backend_cfg.
Variable pre_send_receivers : list (message -> outcome message).
Variable post_send_receivers :
  list (message -> anymail_status response -> outcome pyval).
Variable open_result : outcome bool.
Variable close_result : outcome unit.
Variable build_message_payload :
  message -> list (string * pyval) -> outcome payload.
Variable post_to_esp : payload -> message -> outcome response.
Variable parse_recipient_status :
  response -> payload -> message -> outcome (list (string * string)).

Local Notation send := (_send payload response self pre_send_receivers
  post_send_receivers build_message_payload post_to_esp parse_recipient_status).
Local Notation loop := (send_loop payload response self pre_send_receivers
  post_send_receivers build_message_payload post_to_esp parse_recipient_status).
Local Notation batch := (send_messages payload response self
  pre_send_receivers post_send_receivers open_result close_result
  build_message_payload post_to_esp parse_recipient_status).

Ltac monad_unfold :=
  unfold bind, ret, raise, lift, emit, attach, get_attached, try_except,
         try_finally in *.

(** When fail-silent mode is off, the loop of [send_messages] stops at the
    first exception [_send] raises, of any class: the exception propagates
    and no later message of the batch is attempted. *)
Theorem send_loop_not_silent :
  fail_silently self = false ->
  forall m rest n s,
  send_loop payload response self pre_send_receivers post_send_receivers
    build_message_payload post_to_esp parse_recipient_status (m :: rest) n s =
  match send m (mk_state (st_trace s ++ [ESend (msg_id m)]) (st_attached s)) with
  | (Ok sent, s1) => loop rest (if sent then S n else n) s1
  | (Exc e, s1) => (Exc e, s1)
  end.
Proof.
  intros Hfs m rest n s. simpl. unfold send_one. monad_unfold. simpl.
  destruct (send m _) as [[sent | e] s1]; [reflexivity | ].
  destruct (isinstance e "AnymailError"); [rewrite Hfs | ]; reflexivity.
Qed.

Lemma send_loop_bound msgs n s k s' :
  loop msgs n s = (Ok k, s') -> n <= k <= n + length msgs.
Proof.
  revert n s. induction msgs as [ | m rest IH]; intros n s H; simpl in H.
  - unfold ret in H. inversion H; subst. simpl. lia.
  - unfold bind at 1 in H. destruct (send_one _ _ _ _ _ _ _ _ m s) as [[b | e] s1].
    + apply IH in H. destruct b; simpl; lia.
    + discriminate H.
Qed.

(** The count [send_messages] returns is never more than the number of
    messages in the batch; an empty batch returns 0 without opening a
    session or making any other call. *)
Theorem send_messages_count_bound :
  batch [] = ret 0 /\
  forall msgs s k s', batch msgs s = (Ok k, s') -> k <= length msgs.
Proof.
  split; [reflexivity | ].
  intros [ | m rest] s k s' H.
  - inversion H; subst. simpl; lia.
  - unfold send_messages in H. unfold bind at 1 in H.
    destruct ((emit EOpen;; lift open_result) s) as [[created | e] s1]; [ | discriminate H].
    apply try_finally_ok in H.
    destruct (loop (m :: rest) 0 s1) as [o s2] eqn:E. simpl in H. subst o.
    apply send_loop_bound in E. lia.
Qed.

Lemma send_loop_all_sent msgs n s :
  (forall m s, In m msgs -> fst (send m s) = Ok true) ->
  fst (loop msgs n s) = Ok (n + length msgs).
Proof.
  revert n s. induction msgs as [ | m rest IH]; intros n s Hall; simpl.
  - rewrite Nat.add_0_r. reflexivity.
  - unfold send_one. monad_unfold. simpl.
    specialize (Hall m (mk_state (st_trace s ++ [ESend (msg_id m)]) (st_attached s))
                  (or_introl eq_refl)) as Hm.
    destruct (send m _) as [o s1]. simpl in Hm. subst o.
    rewrite IH; [f_equal; lia | ].
    intros m' s' Hin. apply Hall. right; exact Hin.
Qed.

(** When [_send] reports every message of the batch sent, [send_messages]
    returns the size of the batch, provided [open()] and [close()] do not
    raise. *)
Theorem send_messages_all_sent msgs s created :
  open_result = Ok created ->
  close_result = Ok tt ->
  (forall m s, In m msgs -> fst (send m s) = Ok true) ->
  fst (send_messages payload response self pre_send_receivers
         post_send_receivers open_result close_result build_message_payload
         post_to_esp parse_recipient_status msgs s) = Ok (length msgs).
Proof.
  intros Hopen Hclose Hall. destruct msgs as [ | m rest]; [reflexivity | ].
  unfold send_messages. monad_unfold. cbn -[send_loop]. rewrite Hopen.
  cbn -[send_loop].
  pose proof (send_loop_all_sent (m :: rest) 0
                (mk_state (st_trace s ++ [EOpen]) (st_attached s)) Hall) as H.
  destruct (loop (m :: rest) 0 _) as [o s1]. simpl in H. subst o.
  destruct created; [rewrite Hclose | ]; reflexivity.
Qed.

(** The pre-send hook: when a receiver raises, [_send] returns [False]
    without error if the exception is an [AnymailCancelSend], and raises it
    otherwise; either way nothing else is called, and the message keeps the
    fresh [AnymailStatus] [_send] attached first. *)
Theorem send_pre_send_raises m0 e s :
  signal_send pre_send_receivers m0 = Exc e ->
  send m0 s =
  ((if isinstance e "AnymailCancelSend" then Ok false else Exc e),
   mk_state (st_trace s ++ [EPreSend])
            ((msg_id m0, AnymailStatus) :: st_attached s)).
Proof.
  intros Hpre. unfold _send, run_pre_send. monad_unfold. simpl.
  rewrite Hpre. destruct (isinstance e "AnymailCancelSend"); reflexivity.
Qed.

(** A message the provider accepts: when the pre-send hook lets it
    through with recipients, the provider calls succeed, the post-send
    observers are quiet, and either [ignore_recipient_status] is set or
    some recipient got a status other than [invalid] and [rejected],
    [_send] returns [True], and the message carries the provider's response
    and the parsed statuses. *)
Theorem send_delivered m0 m p r rs s :
  signal_send pre_send_receivers m0 = Ok m ->
  msg_recipients m <> [] ->
  build_message_payload m (send_defaults self) = Ok p ->
  post_to_esp p m = Ok r ->
  parse_recipient_status r p m = Ok rs ->
  Forall quiet_receiver post_send_receivers ->
  (ignore_recipient_status self = true \/
   (NoDup (map fst rs) /\
    exists email st, In (email, st) rs /\ st <> "invalid" /\ st <> "rejected")) ->
  fst (send m0 s) = Ok true /\
  attached_get (st_attached (snd (send m0 s))) (msg_id m0) =
    Some (status_after response r rs).
Proof.
  intros Hpre Hrec Hbuild Hpost Hparse Hq Hok.
  destruct (send_until_status_check payload response self pre_send_receivers
              post_send_receivers build_message_payload post_to_esp
              parse_recipient_status m0 m p r rs s
              Hpre Hrec Hbuild Hpost Hparse Hq) as [t Heq].
  rewrite Heq. unfold raise_for_recipient_status. monad_unfold. simpl.
  destruct Hok as [Hign | (Hnd & email & st & Hin & Hi & Hr)].
  - rewrite Hign. simpl. rewrite Nat.eqb_refl. split; reflexivity.
  - destruct (ignore_recipient_status self); simpl;
      [ | rewrite (not_all_refused_status rs email st Hnd Hin Hi Hr)];
      simpl; rewrite ?Nat.eqb_refl; split; reflexivity.
Qed.

(** A provider call that raises makes [_send] raise the same exception, and
    the later calls are not made.  The message keeps what was recorded
    before the failure: a fresh status when [build_message_payload] or
    [post_to_esp] raises, the provider's response (and no recipient status
    yet) when [parse_recipient_status] raises. *)
Theorem send_provider_errors m0 m e s :
  signal_send pre_send_receivers m0 = Ok m ->
  msg_recipients m <> [] ->
  (build_message_payload m (send_defaults self) = Exc e ->
   send m0 s = (Exc e, mk_state (st_trace s ++ [EPreSend; EBuildPayload])
                         ((msg_id m0, AnymailStatus) :: st_attached s))) /\
  (forall p, build_message_payload m (send_defaults self) = Ok p ->
   post_to_esp p m = Exc e ->
   send m0 s = (Exc e, mk_state (st_trace s ++ [EPreSend; EBuildPayload; EPostToEsp])
                         ((msg_id m0, AnymailStatus) :: st_attached s))) /\
  (forall p r, build_message_payload m (send_defaults self) = Ok p ->
   post_to_esp p m = Ok r ->
   parse_recipient_status r p m = Exc e ->
   send m0 s =
   (Exc e, mk_state (st_trace s ++ [EPreSend; EBuildPayload; EPostToEsp; EParseStatus])
             ((msg_id m0, set_esp_response AnymailStatus r)
              :: (msg_id m0, AnymailStatus) :: st_attached s))).
Proof.
  intros Hpre Hrec.
  unfold _send, run_pre_send. monad_unfold. simpl. rewrite Hpre. simpl.
  destruct (msg_recipients m) as [ | x xs]; [contradiction Hrec; reflexivity | ].
  split; [ | split].
  - intros Hb. rewrite Hb. simpl. rewrite <- app_assoc. reflexivity.
  - intros p Hb Hp. rewrite Hb, Hp. simpl. rewrite <- !app_assoc. reflexivity.
  - intros p r Hb Hp Hs. rewrite Hb, Hp. simpl. rewrite Nat.eqb_refl. simpl.
    rewrite Hs. simpl. rewrite <- !app_assoc. reflexivity.
Qed.

(** A message [_send] skips without error and without calling the provider:
    the pre-send hook cancels it, or leaves it without recipients. *)
Definition skipped_by_hook (m : message) : Prop :=
  (exists e, signal_send pre_send_receivers m = Exc e /\
             isinstance e "AnymailCancelSend" = true) \/
  (exists m', signal_send pre_send_receivers m = Ok m' /\ msg_recipients m' = []).

Lemma send_loop_skipped build skipped msgs n s :
  Forall skipped_by_hook skipped ->
  exists s',
    send_loop payload response self pre_send_receivers post_send_receivers
      build post_to_esp parse_recipient_status (skipped ++ msgs)%list n s =
    send_loop payload response self pre_send_receivers post_send_receivers
      build post_to_esp parse_recipient_status msgs n s'.
Proof.
  intros Hsk. revert n s.
  induction Hsk as [ | m rest Hm _ IH]; intros n s; [exists s; reflexivity | ].
  simpl. unfold send_one. monad_unfold.
  unfold _send at 1, run_pre_send at 1. monad_unfold. simpl.
  destruct Hm as [(e & He & Hc) | (m' & Hm' & Hr)].
  - rewrite He, Hc. simpl. apply IH.
  - rewrite Hm'. simpl. rewrite Hr. simpl. apply IH.
Qed.

(** A provider that leaves [build_message_payload] unimplemented (and keeps
    the base [open] and [close]): when the batch reaches a message that the
    pre-send hook lets through with recipients, every earlier message having
    been cancelled by the hook or left without recipients, [send_messages]
    raises [NotImplementedError], in fail-silent mode as well, since it is
    not an [AnymailError]. *)
Theorem send_messages_unimplemented_build skipped m m' rest s :
  Forall skipped_by_hook skipped ->
  signal_send pre_send_receivers m = Ok m' ->
  msg_recipients m' <> [] ->
  fst (send_messages payload response self pre_send_receivers
         post_send_receivers base_open base_close base_build_message_payload
         post_to_esp parse_recipient_status (skipped ++ m :: rest)%list s)
  = Exc (NotImplementedError "must implement build_message_payload").
Proof.
  intros Hsk Hpre Hrec. unfold send_messages.
  destruct (skipped ++ m :: rest)%list as [ | m1 l] eqn:Hb;
    [destruct skipped; discriminate Hb | rewrite <- Hb].
  monad_unfold. cbn -[send_loop].
  destruct (send_loop_skipped base_build_message_payload skipped (m :: rest) 0
              (mk_state (st_trace s ++ [EOpen]) (st_attached s)) Hsk) as [s' ->].
  simpl send_loop. unfold send_one, _send, run_pre_send. monad_unfold. simpl.
  rewrite Hpre. simpl.
  destruct (msg_recipients m') as [ | x xs]; [contradiction Hrec; reflexivity | ].
  reflexivity.
Qed.

End SendExtras.

(** ** More of [BasePayload] *)

Section PayloadExtras.

Variable P : Type.
Variable backend : backend_cfg.
Variable overrides : string -> option (list pyval -> P -> outcome P).

Local Notation call := (call_method P backend overrides).

Lemma for_each_ext (f g : pyval -> P -> outcome P) xs p :
  (forall x q, f x q = g x q) -> for_each P f xs p = for_each P g xs p.
Proof.
  intros H. revert p. induction xs as [ | x rest IH]; intros p; simpl;
    [reflexivity | ].
  rewrite H. destruct (g x p); simpl; [apply IH | reflexivity].
Qed.

(** [set_to], [set_cc] and [set_bcc], when the provider keeps the base
    versions and the base [set_recipients]: each address goes to
    [add_recipient] with its recipient type, in order.  A provider that does
    not implement [add_recipient] either gets [NotImplementedError] for a
    non-empty list, and nothing for an empty one. *)
Theorem set_recipients_routing kind es p :
  In kind ["to"; "cc"; "bcc"] ->
  overrides ("set_" ++ kind) = None ->
  overrides "set_recipients" = None ->
  (forall f, overrides "add_recipient" = Some f ->
     call ("set_" ++ kind) [VList es] p =
     for_each P (fun email => f [VStr kind; email]) es p) /\
  (overrides "add_recipient" = None ->
     call ("set_" ++ kind) [VList es] p =
     match es with
     | [] => Ok p
     | _ :: _ => Exc (NotImplementedError "must implement add_recipient")
     end).
Proof.
  intros Hin H1 H2.
  simpl in Hin; destruct Hin as [<- | [<- | [<- | []]]];
  unfold call_method, call_with; rewrite H1; simpl;
  unfold call1, call_with; rewrite H2; simpl;
  (split;
   [ intros f Hf; apply for_each_ext; intros x q;
     unfold call0, call_with; rewrite Hf; reflexivity
   | intros Hn; destruct es; simpl; [reflexivity | ];
     unfold call0, call_with; rewrite Hn; reflexivity ]).
Qed.

(** [set_attachments], when the provider keeps the base version: each
    attachment goes to [add_attachment], in order; without an
    [add_attachment] either, a non-empty list raises
    [NotImplementedError]. *)
Theorem set_attachments_routing atts p :
  overrides "set_attachments" = None ->
  (forall f, overrides "add_attachment" = Some f ->
     call "set_attachments" [VList atts] p = for_each P (fun a => f [a]) atts p) /\
  (overrides "add_attachment" = None ->
     call "set_attachments" [VList atts] p =
     match atts with
     | [] => Ok p
     | _ :: _ => Exc (NotImplementedError "must implement add_attachment")
     end).
Proof.
  intros H1. unfold call_method, call_with. rewrite H1. simpl. split.
  - intros f Hf. apply for_each_ext. intros x q.
    unfold call0, call_with. rewrite Hf. reflexivity.
  - intros Hn. destruct atts; simpl; [reflexivity | ].
    unfold call0, call_with. rewrite Hn. reflexivity.
Qed.

Lemma call0_override name f args q :
  overrides name = Some f -> call0 P backend overrides name args q = f args q.
Proof. intros H. unfold call0, call_with. rewrite H. reflexivity. Qed.

Lemma call0_base name args q :
  overrides name = None ->
  call0 P backend overrides name args q =
  match base_method0 P backend name args q with
  | Some r => r
  | None => Exc (AttributeError name)
  end.
Proof. intros H. unfold call0, call_with. rewrite H. reflexivity. Qed.

(** An alternative part [(content, mimetype)] of a message. *)
Definition alternative_part (a : pyval * string) : pyval :=
  VList [fst a; VStr (snd a)].

Definition is_html_part (a : pyval * string) : bool := String.eqb (snd a) "text/html".

(** [set_alternatives] with the base [add_alternative] and
    [ignore_unsupported_features] set: the [text/html] parts go to
    [set_html_body], in order, and every other part is dropped without
    error. *)
Theorem set_alternatives_permissive alts p h :
  ignore_unsupported_features backend = true ->
  overrides "set_alternatives" = None ->
  overrides "add_alternative" = None ->
  overrides "set_html_body" = Some h ->
  call "set_alternatives" [VList (map alternative_part alts)] p =
  for_each P (fun c => h [c]) (map fst (filter is_html_part alts)) p.
Proof.
  intros Hign H1 H2 Hh. unfold call_method, call_with. rewrite H1. simpl.
  revert p. induction alts as [ | [c mt] rest IH]; intros p; simpl; [reflexivity | ].
  unfold is_html_part at 1. simpl.
  destruct (String.eqb mt "text/html").
  - rewrite (call0_override "set_html_body" h [c] p Hh). simpl.
    destruct (h [c] p); simpl; [apply IH | reflexivity].
  - rewrite (call0_base "add_alternative" [c; VStr mt] p H2). simpl.
    unfold unsupported, unsupported_feature. rewrite Hign. simpl. apply IH.
Qed.

(** [set_alternatives] with the base [add_alternative] and
    [ignore_unsupported_features] unset: the first part that is not
    [text/html] raises [AnymailUnsupportedFeature] naming its type (the
    [text/html] parts before it having gone to [set_html_body]). *)
Theorem set_alternatives_strict pre c mt rest p h :
  ignore_unsupported_features backend = false ->
  overrides "set_alternatives" = None ->
  overrides "add_alternative" = None ->
  overrides "set_html_body" = Some h ->
  (forall c q, exists q', h [c] q = Ok q') ->
  Forall (fun a => is_html_part a = true) pre ->
  mt <> "text/html" ->
  call "set_alternatives"
    [VList (map alternative_part (pre ++ (c, mt) :: rest)%list)] p =
  Exc (AnymailUnsupportedFeature
         (esp_name backend ++ " does not support alternative part with type '"
          ++ mt ++ "'")).
Proof.
  intros Hign H1 H2 Hh Htot Hpre Hmt. unfold call_method, call_with. rewrite H1.
  simpl. revert p. induction Hpre as [ | [c0 mt0] pre' Hc Hpre' IH]; intros p; simpl.
  - apply String.eqb_neq in Hmt. rewrite Hmt.
    rewrite (call0_base "add_alternative" [c; VStr mt] p H2). simpl.
    unfold unsupported, unsupported_feature. rewrite Hign. reflexivity.
  - unfold is_html_part in Hc. simpl in Hc. rewrite Hc.
    rewrite (call0_override "set_html_body" h [c0] p Hh).
    destruct (Htot c0 p) as [q Hq]. rewrite Hq. simpl. apply IH.
Qed.

(** Whether a rule's attribute is present in the message or in the
    defaults. *)
Definition rule_present (m : message) (defaults : list (string * pyval))
    (r : attr_rule) : bool :=
  match getattr_message m (rule_attr r), dict_get defaults (rule_attr r) with
  | None, None => false
  | _, _ => true
  end.

(** In the loop of [BasePayload.__init__], a rule whose attribute is absent
    from both the message and the defaults calls no setter and changes
    nothing, whatever its combiner and converter and wherever it stands
    among the rules: the loop behaves as the loop over the present rules
    only. *)
Theorem payload_loop_absent converter_method m defaults rules p :
  payload_loop P backend converter_method overrides m defaults rules p =
  payload_loop P backend converter_method overrides m defaults
    (filter (rule_present m defaults) rules) p.
Proof.
  revert p. induction rules as [ | r rest IH]; intros p; [reflexivity | ].
  unfold rule_present at 1. simpl.
  destruct (getattr_message m (rule_attr r)) as [v | ] eqn:Hm;
    [ | destruct (dict_get defaults (rule_attr r)) as [d | ] eqn:Hd];
  simpl;
  [ | | unfold attr_step at 1, combined_value at 1; rewrite Hm, Hd;
        destruct (rule_combiner r); simpl; apply IH ];
  (destruct (attr_step converter_method m defaults r) as [[[name v'] | ] | e];
     [ destruct (negb _); [reflexivity | ];
       destruct (call_method P backend overrides name [v'] p) as [p' | e]; [ | reflexivity];
       rewrite IH; reflexivity
     | apply IH
     | reflexivity ]).
Qed.

End PayloadExtras.

(** ** More of [aware_datetime] *)

Section AwareDatetimeExtras.

Variable utcfromtimestamp : Z -> outcome datetime.
Variable localize_error : datetime -> string -> option pyexn.
Variable current_timezone : string.

Local Notation aware := (aware_datetime utcfromtimestamp localize_error current_timezone).

(** A naive datetime is put in the current time zone, its fields kept; a
    date is midnight of that day in the current time zone; an integer is a
    POSIX timestamp, read in UTC, not in the current time zone. *)
Theorem aware_datetime_conversions :
  (forall dt, is_naive dt = true -> localize_error dt current_timezone = None ->
     aware (VDateTime dt) = Ok (VDateTime (replace_tzinfo dt current_timezone))) /\
  (forall y mo d,
     localize_error (mk_datetime y mo d 0 0 0 0 None) current_timezone = None ->
     aware (VDate y mo d) =
     Ok (VDateTime (mk_datetime y mo d 0 0 0 0 (Some current_timezone)))) /\
  (forall z dt, utcfromtimestamp z = Ok dt ->
     aware (VInt z) = Ok (VDateTime (replace_tzinfo dt utc))).
Proof.
  split; [ | split].
  - intros [y mo d h mi sec us tz] Hn Hl. simpl in Hn.
    destruct tz; [discriminate Hn | ].
    unfold aware_datetime, make_aware. simpl. rewrite Hl. reflexivity.
  - intros y mo d Hl. unfold aware_datetime, make_aware. simpl.
    rewrite Hl. reflexivity.
  - intros z dt H. unfold aware_datetime. simpl. rewrite H. reflexivity.
Qed.

(** Errors: a timestamp [utcfromtimestamp] refuses with [TypeError] or
    [ValueError] is returned unchanged, any other error it raises
    propagates; an error of [make_aware] on a naive datetime propagates. *)
Theorem aware_datetime_errors :
  (forall z e, utcfromtimestamp z = Exc e ->
     aware (VInt z) =
     if isinstance e "TypeError" || isinstance e "ValueError"
     then Ok (VInt z) else Exc e) /\
  (forall dt e, is_naive dt = true -> localize_error dt current_timezone = Some e ->
     aware (VDateTime dt) = Exc e).
Proof.
  split.
  - intros z e H. unfold aware_datetime. simpl. rewrite H.
    destruct (isinstance e "TypeError" || isinstance e "ValueError"); reflexivity.
  - intros dt e Hn Hl. unfold aware_datetime. rewrite Hn.
    unfold make_aware. rewrite Hl. reflexivity.
Qed.

End AwareDatetimeExtras.

(** ** [AnymailBaseBackend.__init__] *)

(** The backend's [send_defaults]: a key of [<ESP>_SEND_DEFAULTS] takes
    that value, any other key the one of [SEND_DEFAULTS]; a setting that
    is not configured contributes no key. *)
Theorem backend_send_defaults_lookup name fs iu ir g e k :
  match e with Some d => NoDup (map fst d) | None => True end ->
  dict_get (send_defaults (AnymailBaseBackend_init name fs iu ir g e)) k =
  match match e with Some d => dict_get d k | None => None end with
  | Some v => Some v
  | None => match g with Some d => dict_get d k | None => None end
  end.
Proof.
  intros Hnd. unfold AnymailBaseBackend_init, merged_send_defaults. simpl.
  destruct e as [d | ].
  - rewrite dict_get_update by exact Hnd. destruct (dict_get d k); [reflexivity | ].
    destruct g; reflexivity.
  - destruct g; reflexivity.
Qed.

(** A one-recipient message, a provider whose calls succeed and that
    reports the recipient [rejected], and two post-send observers. *)
Definition cfg_ignore (ignore : bool) : backend_cfg :=
  mk_backend "Test" false ignore false [].

Definition msg_a : message := mk_message 1 ["a@example.com"] [] "plain".

Definition ok_build (_ : message) (_ : list (string * pyval)) : outcome unit := Ok tt.
Definition ok_post (_ : unit) (_ : message) : outcome unit := Ok tt.
Definition refusing_parse (_ : unit) (_ : unit) (_ : message)
  : outcome (list (string * string)) := Ok [("a@example.com", "rejected")].

Definition raising_observer (_ : message) (_ : anymail_status unit) : outcome pyval :=
  Exc (ValueError "observer failed").
Definition quiet_observer (_ : message) (_ : anymail_status unit) : outcome pyval :=
  Ok VNone.

Definition state0 : state unit := mk_state [] [].

Lemma quiet_observer_quiet : quiet_receiver quiet_observer.
Proof. intros m st. exists VNone. split; reflexivity. Qed.

(** C1 fails as stated: the post-send observers run before the status
    check, and an observer's error is re-raised first.  With the recipient
    rejected and an observer raising [ValueError], [_send] raises that
    [ValueError], whether [ignore_recipient_status] is unset (the claim says
    [AnymailRecipientsRefused]) or set (the claim says it returns
    [True]). *)
Lemma send_all_refused_observer_raises :
  fst (_send unit unit (cfg_ignore false) [] [raising_observer]
         ok_build ok_post refusing_parse msg_a state0)
  = Exc (ValueError "observer failed") /\
  fst (_send unit unit (cfg_ignore true) [] [raising_observer]
         ok_build ok_post refusing_parse msg_a state0)
  = Exc (ValueError "observer failed").
Proof. split; reflexivity. Qed.

Lemma send_all_recipients_refused_witness :
  exists e,
    fst (_send unit unit (cfg_ignore false) [] [quiet_observer]
           ok_build ok_post refusing_parse msg_a state0) = Exc e /\
    exn_class e = "AnymailRecipientsRefused".
Proof.
  apply (proj1 (send_all_recipients_refused unit unit (cfg_ignore false) []
                  [quiet_observer] ok_build ok_post refusing_parse msg_a msg_a
                  tt tt [("a@example.com", "rejected")] state0
                  eq_refl ltac:(discriminate) eq_refl eq_refl eq_refl eq_refl
                  (Forall_cons _ quiet_observer_quiet (Forall_nil _)))).
  reflexivity.
Defined.

Lemma raise_for_recipient_status_no_recipients_witness :
  exists e,
    fst (raise_for_recipient_status unit unit (cfg_ignore false)
           (status_after unit tt []) tt tt msg_a state0)
    = Exc e /\ exn_class e = "AnymailRecipientsRefused".
Proof.
  exact (raise_for_recipient_status_no_recipients unit unit (cfg_ignore false)
           tt tt msg_a state0 eq_refl).
Defined.

(** A fail-silent backend, a provider that leaves [build_message_payload]
    unimplemented and whose [close()] fails. *)
Definition cfg_silent : backend_cfg := mk_backend "Test" false false true [].

Definition OSError (msg : string) := builtin_exn "OSError" msg.

Definition unimplemented_build (_ : message) (_ : list (string * pyval))
  : outcome unit := Exc (NotImplementedError "build_message_payload").

Definition failing_close : outcome unit := Exc (OSError "close failed").

(** A message without recipients, and pre-send receivers. *)
Definition msg_none : message := mk_message 2 [] [] "plain".

Definition clear_recipients (m : message) : outcome message :=
  Ok (mk_message (msg_id m) [] (msg_attrs m) (content_subtype m)).
Definition raising_pre_send (_ : message) : outcome message :=
  Exc (ValueError "pre_send failed").

(** Post-send observers: one returns an exception object, one raises a
    [TypeError], one raises [KeyboardInterrupt], a [BaseException] that is
    not an [Exception]. *)
Definition returning_observer (_ : message) (_ : anymail_status unit)
  : outcome pyval := Ok (VExn (ValueError "returned")).
Definition type_error_observer (_ : message) (_ : anymail_status unit)
  : outcome pyval := Exc (TypeError "raised").
Definition KeyboardInterrupt : pyexn :=
  mk_exn "KeyboardInterrupt" ["KeyboardInterrupt"; "BaseException"] "interrupted".
Definition interrupting_observer (_ : message) (_ : anymail_status unit)
  : outcome pyval := Exc KeyboardInterrupt.


(** C3 fails as stated: an exception outside [AnymailError] does not always
    propagate out of [send_messages] in fail-silent mode.  When [_send]
    raises [NotImplementedError] and the [close()] of the session that
    [send_messages] opened raises [OSError], the [finally] clause replaces
    the first exception with the second. *)
Lemma send_messages_close_raises :
  fst (_send unit unit cfg_silent [] [] unimplemented_build ok_post
         refusing_parse msg_a state0)
  = Exc (NotImplementedError "build_message_payload") /\
  isinstance (NotImplementedError "build_message_payload") "AnymailError" = false /\
  fst (send_messages unit unit cfg_silent [] [] (Ok true) failing_close
         unimplemented_build ok_post refusing_parse [msg_a] state0)
  = Exc (OSError "close failed").
Proof. repeat split. Qed.

Lemma send_loop_fail_silently_witness :
  fail_silently cfg_silent = true /\
  fst (send_messages unit unit cfg_silent [] [] (Ok true) failing_close
         unimplemented_build ok_post refusing_parse [msg_a] state0)
  = Exc (OSError "close failed").
Proof.
  split; [reflexivity | ].
  refine (proj2 (send_loop_fail_silently unit unit cfg_silent [] [] (Ok true)
                   failing_close unimplemented_build ok_post refusing_parse
                   eq_refl)
                [msg_a] state0 true (NotImplementedError "build_message_payload")
                _ ltac:(discriminate) eq_refl _).
  reflexivity.
Defined.

(** C4 fails as stated: a pre-send receiver that raises (anything but
    [AnymailCancelSend]) makes [_send] raise, also for a message without
    recipients. *)
Lemma send_no_recipients_pre_send_raises :
  msg_recipients msg_none = [] /\
  fst (_send unit unit (cfg_ignore false) [raising_pre_send] [] ok_build
         ok_post refusing_parse msg_none state0)
  = Exc (ValueError "pre_send failed").
Proof. split; reflexivity. Qed.

Lemma send_no_recipients_witness :
  signal_send [clear_recipients] msg_a = Ok (mk_message 1 [] [] "plain") /\
  _send unit unit (cfg_ignore false) [clear_recipients] [] ok_build ok_post
    refusing_parse msg_a state0
  = (Ok false, mk_state [EPreSend] [(1, AnymailStatus)]).
Proof.
  split; [reflexivity | ].
  exact (send_no_recipients unit unit (cfg_ignore false) [clear_recipients] []
           ok_build ok_post refusing_parse msg_a (mk_message 1 [] [] "plain")
           state0 eq_refl eq_refl).
Defined.

(** C8 fails as stated, in two ways.  The error [_send] re-raises is the
    first response that is an exception, and that may be an exception
    object an observer returned rather than the one another observer
    raised.  And an observer raising a [BaseException] that is not an
    [Exception] ([KeyboardInterrupt]) stops the observers at once: the
    observer after it never runs. *)
Lemma send_post_send_returned_exception :
  fst (_send unit unit (cfg_ignore false) []
         [returning_observer; type_error_observer]
         ok_build ok_post refusing_parse msg_a state0)
  = Exc (ValueError "returned") /\
  st_trace (snd (_send unit unit (cfg_ignore false) []
         [interrupting_observer; quiet_observer]
         ok_build ok_post refusing_parse msg_a state0))
  = [EPreSend; EBuildPayload; EPostToEsp; EParseStatus; ERunPostSend;
     EPostSendReceiver 0].
Proof. split; reflexivity. Qed.

Lemma send_post_send_errors_witness :
  (fst (_send unit unit (cfg_ignore false) [] [raising_observer; quiet_observer]
          ok_build ok_post refusing_parse msg_a state0)
   = Exc (ValueError "observer failed") /\
   st_trace (snd (_send unit unit (cfg_ignore false) []
                    [raising_observer; quiet_observer]
                    ok_build ok_post refusing_parse msg_a state0))
   = calls_to_post_send 2) /\
  (fst (_send unit unit (cfg_ignore false) []
          [quiet_observer; interrupting_observer; quiet_observer]
          ok_build ok_post refusing_parse msg_a state0)
   = Exc KeyboardInterrupt /\
   st_trace (snd (_send unit unit (cfg_ignore false) []
                    [quiet_observer; interrupting_observer; quiet_observer]
                    ok_build ok_post refusing_parse msg_a state0))
   = calls_to_post_send 2).
Proof.
  split.
  - exact (proj1 (proj1 (send_post_send_errors unit unit (cfg_ignore false) []
                    [raising_observer; quiet_observer] ok_build ok_post
                    refusing_parse msg_a msg_a tt tt
                    [("a@example.com", "rejected")] state0
                    eq_refl ltac:(discriminate) eq_refl eq_refl eq_refl)
                  ltac:(repeat constructor))
             (ValueError "observer failed") eq_refl).
  - exact (proj2 (send_post_send_errors unit unit (cfg_ignore false) []
                    [quiet_observer; interrupting_observer; quiet_observer]
                    ok_build ok_post refusing_parse msg_a msg_a tt tt
                    [("a@example.com", "rejected")] state0
                    eq_refl ltac:(discriminate) eq_refl eq_refl eq_refl)
             [quiet_observer] interrupting_observer [quiet_observer]
             KeyboardInterrupt eq_refl ltac:(repeat constructor) eq_refl eq_refl).
Defined.

(** A second message, a provider reporting the recipient [sent], a
    pre-send receiver that cancels, and a failing [post_to_esp]. *)
Definition msg_b : message := mk_message 3 ["b@example.com"] [] "plain".

Definition accepting_parse (_ : unit) (_ : unit) (_ : message)
  : outcome (list (string * string)) := Ok [("a@example.com", "sent")].

Definition cancelling_pre_send (_ : message) : outcome message :=
  Exc (AnymailCancelSend "skip").

Definition failing_post (_ : unit) (_ : message) : outcome unit :=
  Exc (AnymailAPIError "HTTP 500").

Lemma send_loop_not_silent_witness :
  fail_silently (cfg_ignore false) = false /\
  send_loop unit unit (cfg_ignore false) [] [quiet_observer] ok_build ok_post
    refusing_parse [msg_a; msg_b] 0 state0
  = (Exc (AnymailRecipientsRefused "recipients refused"),
     mk_state [ESend 1; EPreSend; EBuildPayload; EPostToEsp; EParseStatus;
               ERunPostSend; EPostSendReceiver 0; ERaiseForStatus]
       [(1, status_after unit tt [("a@example.com", "rejected")]);
        (1, set_esp_response AnymailStatus tt); (1, AnymailStatus)]).
Proof.
  split; [reflexivity | ].
  rewrite (send_loop_not_silent unit unit (cfg_ignore false) [] [quiet_observer]
             ok_build ok_post refusing_parse eq_refl msg_a [msg_b] 0 state0).
  reflexivity.
Defined.

Lemma send_messages_count_bound_witness :
  fst (send_messages unit unit (cfg_ignore false) [] [quiet_observer] (Ok true)
         (Ok tt) ok_build ok_post accepting_parse [msg_a] state0) = Ok 1 /\
  1 <= length [msg_a].
Proof.
  split; [reflexivity | ].
  exact (proj2 (send_messages_count_bound unit unit (cfg_ignore false) []
                  [quiet_observer] (Ok true) (Ok tt) ok_build ok_post
                  accepting_parse)
           [msg_a] state0 1
           (snd (send_messages unit unit (cfg_ignore false) [] [quiet_observer]
                   (Ok true) (Ok tt) ok_build ok_post accepting_parse [msg_a]
                   state0))
           eq_refl).
Defined.

Lemma send_messages_all_sent_witness :
  (forall m s, In m [msg_a; msg_b] ->
     fst (_send unit unit (cfg_ignore false) [] [quiet_observer] ok_build ok_post
            accepting_parse m s) = Ok true) /\
  fst (send_messages unit unit (cfg_ignore false) [] [quiet_observer] (Ok true)
         (Ok tt) ok_build ok_post accepting_parse [msg_a; msg_b] state0) = Ok 2.
Proof.
  assert (H : forall m s, In m [msg_a; msg_b] ->
     fst (_send unit unit (cfg_ignore false) [] [quiet_observer] ok_build ok_post
            accepting_parse m s) = Ok true)
    by (intros m s [<- | [<- | []]]; reflexivity).
  split; [exact H | ].
  exact (send_messages_all_sent unit unit (cfg_ignore false) [] [quiet_observer]
           (Ok true) (Ok tt) ok_build ok_post accepting_parse [msg_a; msg_b]
           state0 true eq_refl eq_refl H).
Defined.

Lemma send_pre_send_raises_witness :
  signal_send [cancelling_pre_send] msg_a = Exc (AnymailCancelSend "skip") /\
  _send unit unit (cfg_ignore false) [cancelling_pre_send] [] ok_build ok_post
    accepting_parse msg_a state0
  = (Ok false, mk_state [EPreSend] [(1, AnymailStatus)]).
Proof.
  split; [reflexivity | ].
  exact (send_pre_send_raises unit unit (cfg_ignore false) [cancelling_pre_send]
           [] ok_build ok_post accepting_parse msg_a
           (AnymailCancelSend "skip") state0 eq_refl).
Defined.

Lemma send_delivered_witness :
  fst (_send unit unit (cfg_ignore false) [] [quiet_observer] ok_build ok_post
         accepting_parse msg_a state0) = Ok true /\
  attached_get (st_attached (snd (_send unit unit (cfg_ignore false) []
                  [quiet_observer] ok_build ok_post accepting_parse msg_a state0)))
    1 = Some (status_after unit tt [("a@example.com", "sent")]).
Proof.
  apply (send_delivered unit unit (cfg_ignore false) [] [quiet_observer] ok_build
           ok_post accepting_parse msg_a msg_a tt tt [("a@example.com", "sent")]
           state0 eq_refl ltac:(discriminate) eq_refl eq_refl eq_refl
           (Forall_cons _ quiet_observer_quiet (Forall_nil _))).
  right. split.
  - constructor; [intros [] | constructor].
  - exists "a@example.com", "sent". repeat split; [left; reflexivity | discriminate | discriminate].
Defined.

Lemma send_provider_errors_witness :
  _send unit unit (cfg_ignore false) [] [] ok_build failing_post accepting_parse
    msg_a state0
  = (Exc (AnymailAPIError "HTTP 500"),
     mk_state [EPreSend; EBuildPayload; EPostToEsp] [(1, AnymailStatus)]).
Proof.
  exact (proj1 (proj2 (send_provider_errors unit unit (cfg_ignore false) [] []
                         ok_build failing_post accepting_parse msg_a msg_a
                         (AnymailAPIError "HTTP 500") state0
                         eq_refl ltac:(discriminate)))
           tt eq_refl eq_refl).
Defined.

Lemma send_messages_unimplemented_build_witness :
  fail_silently cfg_silent = true /\
  fst (send_messages unit unit cfg_silent [] [] base_open base_close
         base_build_message_payload ok_post accepting_parse
         [msg_none; msg_a; msg_b] state0)
  = Exc (NotImplementedError "must implement build_message_payload").
Proof.
  split; [reflexivity | ].
  exact (send_messages_unimplemented_build unit unit cfg_silent [] [] ok_post
           accepting_parse [msg_none] msg_a msg_a [msg_b] state0
           (Forall_cons _ (or_intror (ex_intro _ msg_none (conj eq_refl eq_refl)))
              (Forall_nil _))
           eq_refl ltac:(discriminate)).
Defined.

(** A provider payload that overrides the given methods and records each
    call (method name, then arguments). *)
Definition recording_methods (names : list string) (name : string)
  : option (list pyval -> list (list pyval) -> outcome (list (list pyval))) :=
  if existsb (String.eqb name) names
  then Some (fun args calls => Ok (calls ++ [VStr name :: args])%list)
  else None.

Definition cfg_permissive : backend_cfg := mk_backend "Test" true false false [].

Lemma set_recipients_routing_witness :
  call_method (list (list pyval)) (cfg_ignore false)
    (recording_methods ["add_recipient"]) "set_cc"
    [VList [VStr "x@example.com"; VStr "y@example.com"]] []
  = Ok [[VStr "add_recipient"; VStr "cc"; VStr "x@example.com"];
        [VStr "add_recipient"; VStr "cc"; VStr "y@example.com"]].
Proof.
  etransitivity;
    [exact (proj1 (set_recipients_routing (list (list pyval)) (cfg_ignore false)
                     (recording_methods ["add_recipient"]) "cc"
                     [VStr "x@example.com"; VStr "y@example.com"] []
                     ltac:(simpl; tauto) eq_refl eq_refl)
              _ eq_refl) | ].
  reflexivity.
Defined.

Lemma set_attachments_routing_witness :
  call_method (list (list pyval)) (cfg_ignore false) (recording_methods [])
    "set_attachments" [VList [VStr "a.txt"]] []
  = Exc (NotImplementedError "must implement add_attachment").
Proof.
  exact (proj2 (set_attachments_routing (list (list pyval)) (cfg_ignore false)
                  (recording_methods []) [VStr "a.txt"] [] eq_refl) eq_refl).
Defined.

Lemma set_alternatives_permissive_witness :
  call_method (list (list pyval)) cfg_permissive
    (recording_methods ["set_html_body"]) "set_alternatives"
    [VList [VList [VStr "<p>Hi</p>"; VStr "text/html"];
            VList [VStr "BEGIN:VCALENDAR"; VStr "text/calendar"]]] []
  = Ok [[VStr "set_html_body"; VStr "<p>Hi</p>"]].
Proof.
  etransitivity;
    [exact (set_alternatives_permissive (list (list pyval)) cfg_permissive
              (recording_methods ["set_html_body"])
              [(VStr "<p>Hi</p>", "text/html"); (VStr "BEGIN:VCALENDAR", "text/calendar")]
              [] _ eq_refl eq_refl eq_refl eq_refl) | ].
  reflexivity.
Defined.

Lemma set_alternatives_strict_witness :
  call_method (list (list pyval)) (cfg_ignore false)
    (recording_methods ["set_html_body"]) "set_alternatives"
    [VList [VList [VStr "<p>Hi</p>"; VStr "text/html"];
            VList [VStr "BEGIN:VCALENDAR"; VStr "text/calendar"]]] []
  = Exc (AnymailUnsupportedFeature
           "Test does not support alternative part with type 'text/calendar'").
Proof.
  exact (set_alternatives_strict (list (list pyval)) (cfg_ignore false)
           (recording_methods ["set_html_body"]) [(VStr "<p>Hi</p>", "text/html")]
           (VStr "BEGIN:VCALENDAR") "text/calendar" [] [] _
           eq_refl eq_refl eq_refl eq_refl
           (fun c q => ex_intro _ _ eq_refl)
           (Forall_cons (VStr "<p>Hi</p>", "text/html") (eq_refl true) (Forall_nil _))
           ltac:(discriminate)).
Defined.

Lemma payload_loop_absent_witness :
  payload_loop unit cfg_permissive (fun _ => None) (fun _ => None)
    (mk_message 0 ["a@example.com"] [("tags", VList [VStr "x"])] "plain")
    [("track_opens", VBool true)] anymail_message_attrs tt
  = payload_loop unit cfg_permissive (fun _ => None) (fun _ => None)
      (mk_message 0 ["a@example.com"] [("tags", VList [VStr "x"])] "plain")
      [("track_opens", VBool true)]
      [mk_rule "tags" CombCombine (ConvCallable force_non_lazy_list);
       mk_rule "track_opens" CombLast ConvNone] tt.
Proof.
  exact (payload_loop_absent unit cfg_permissive (fun _ => None) (fun _ => None)
           (mk_message 0 ["a@example.com"] [("tags", VList [VStr "x"])] "plain")
           [("track_opens", VBool true)] anymail_message_attrs tt).
Defined.

(** [datetime.utcfromtimestamp] with the range check of year 9999. *)
Definition limited_utcfromtimestamp (z : Z) : outcome datetime :=
  if (z <? 253402300800)%Z then Ok (mk_datetime 1970 1 1 0 0 z 0 None)
  else Exc (ValueError "year is out of range").

Lemma aware_datetime_conversions_witness :
  aware_datetime limited_utcfromtimestamp example_no_localize_error "UTC+02:00"
    (VDateTime (mk_datetime 2024 3 1 9 30 0 0 None))
  = Ok (VDateTime (mk_datetime 2024 3 1 9 30 0 0 (Some "UTC+02:00"))).
Proof.
  exact (proj1 (aware_datetime_conversions limited_utcfromtimestamp
                  example_no_localize_error "UTC+02:00")
           (mk_datetime 2024 3 1 9 30 0 0 None) eq_refl eq_refl).
Defined.

Lemma aware_datetime_errors_witness :
  aware_datetime limited_utcfromtimestamp example_no_localize_error "UTC+02:00"
    (VInt 300000000000) = Ok (VInt 300000000000).
Proof.
  exact (proj1 (aware_datetime_errors limited_utcfromtimestamp
                  example_no_localize_error "UTC+02:00")
           300000000000%Z (ValueError "year is out of range") eq_refl).
Defined.

Lemma backend_send_defaults_lookup_witness :
  dict_get (send_defaults (AnymailBaseBackend_init "Test" false None None
              (Some [("tags", VList [VStr "all"]); ("track_opens", VBool true)])
              (Some [("tags", VList [VStr "esp"])]))) "tags"
  = Some (VList [VStr "esp"]).
Proof.
  exact (backend_send_defaults_lookup "Test" false None None
           (Some [("tags", VList [VStr "all"]); ("track_opens", VBool true)])
           (Some [("tags", VList [VStr "esp"])]) "tags"
           ltac:(constructor; [intros [] | constructor])).
Defined.

(** The post-send observers see the message as the pre-send receivers left
    it: a hook that adds an attribute, and an observer that raises when the
    message has attributes, make [_send] raise. *)
Definition tagging_pre_send (m : message) : outcome message :=
  Ok (mk_message (msg_id m) (msg_recipients m) (("tags", VList []) :: msg_attrs m)
        (content_subtype m)).

Definition attrs_observer (m : message) (_ : anymail_status unit) : outcome pyval :=
  match msg_attrs m with [] => Ok VNone | _ :: _ => Exc (ValueError "changed") end.

Example post_send_sees_pre_send_changes :
  fst (_send unit unit (cfg_ignore false) [tagging_pre_send] [attrs_observer]
         ok_build ok_post accepting_parse msg_a state0)
  = Exc (ValueError "changed").
Proof. reflexivity. Qed.
